(** * LLM Jukebox: the search, download and finalize workflow of [server.py]

    A shallow embedding of [src/server.py].  Python text is a [string] of
    bytes (UTF-8), Python values that travel through metadata dictionaries
    are [pyval], errors are values of [exc] carried by [result], and the two
    [yt_dlp] entry points the server calls are a record of behaviours
    ([YoutubeDL]).  Calls made to the collaborator are recorded in a log, so
    that what is requested (and whether anything is requested) can be stated. *)

From Stdlib Require Import String Ascii List ZArith Lia Bool DecimalString.
Import ListNotations.
Local Open Scope list_scope.
Local Open Scope string_scope.

Set Implicit Arguments.
Set Warnings "-register-all".


(* ================================================================== *)
(** * Text *)
(* ================================================================== *)

Module Text.

(** [str.lower()] on one byte: only ASCII capitals change.  Bytes of a
    multi-byte UTF-8 sequence are left alone; the only use in [server.py]
    compares the result with [".mp3"], whose characters have no non-ASCII
    upper-case form. *)
Definition lower_ascii (c : ascii) : ascii :=
  let n := nat_of_ascii c in
  if (65 <=? n)%nat && (n <=? 90)%nat then ascii_of_nat (n + 32) else c.

Fixpoint lower (s : string) : string :=
  match s with
  | EmptyString => EmptyString
  | String c r => String (lower_ascii c) (lower r)
  end.

(** [s[:n]] and [s[n:]] for [0 <= n]. *)
Fixpoint take (n : nat) (s : string) : string :=
  match n, s with
  | O, _ => EmptyString
  | S _, EmptyString => EmptyString
  | S k, String c r => String c (take k r)
  end.

Fixpoint drop (n : nat) (s : string) : string :=
  match n, s with
  | O, _ => s
  | S _, EmptyString => EmptyString
  | S k, String c r => drop k r
  end.

(** [s.rfind(c)], [None] standing for Python's [-1]. *)
Fixpoint rfind (c : ascii) (s : string) : option nat :=
  match s with
  | EmptyString => None
  | String a r =>
      match rfind c r with
      | Some i => Some (S i)
      | None => if Ascii.eqb a c then Some O else None
      end
  end.

(** [c in s] for a single character. *)
Fixpoint mem (c : ascii) (s : string) : bool :=
  match s with
  | EmptyString => false
  | String a r => Ascii.eqb a c || mem c r
  end.

(** [s.split(sep)] for a one-character separator: never empty. *)
Fixpoint split (sep : ascii) (s : string) : list string :=
  match s with
  | EmptyString => [EmptyString]
  | String a r =>
      if Ascii.eqb a sep then EmptyString :: split sep r
      else match split sep r with
           | h :: t => String a h :: t
           | [] => [String a EmptyString]
           end
  end.

(** [sep.join(parts)]. *)
Fixpoint join (sep : string) (parts : list string) : string :=
  match parts with
  | [] => EmptyString
  | [p] => p
  | p :: rest => p ++ sep ++ join sep rest
  end.

(** [needle in hay] for text. *)
Fixpoint is_substring (needle hay : string) : bool :=
  String.prefix needle hay ||
  match hay with
  | EmptyString => false
  | String _ r => is_substring needle r
  end.

End Text.

(* ================================================================== *)
(** * Python values, errors and results *)
(* ================================================================== *)

(** The values found in [yt_dlp] metadata that the server inspects or
    formats: [None], booleans, integers, text, lists and dictionaries with
    text keys (kept in insertion order). *)
Inductive pyval : Type :=
| PNone
| PBool (b : bool)
| PInt (z : Z)
| PStr (s : string)
| PList (l : list pyval)
| PDict (d : list (string * pyval)).

Definition pydict := list (string * pyval).

(** An error object: its class name, what [str(e)] gives, and its
    [__context__], the error that was being handled when it was raised
    ([None] when none was). *)
Inductive exc : Type :=
  mkExc { exc_type : string; exc_str : string; exc_context : option exc }.

(** How a call ends: with a value, with an error that is an instance of
    [Exception] ([Raise]), or with an error that is not, such as
    [KeyboardInterrupt], [SystemExit] or [GeneratorExit] ([RaiseBase]).
    The handlers of [server.py] are all [except Exception]: they catch the
    first kind and let the second through. *)
Inductive result (A : Type) : Type :=
| Ret (a : A)
| Raise (e : exc)
| RaiseBase (e : exc).
Arguments Ret {A} a.
Arguments Raise {A} e.
Arguments RaiseBase {A} e.

Module Py.

(** [bool(v)]. *)
Definition truthy (v : pyval) : bool :=
  match v with
  | PNone => false
  | PBool b => b
  | PInt z => negb (Z.eqb z 0)
  | PStr s => negb (String.eqb s "")
  | PList l => match l with [] => false | _ => true end
  | PDict d => match d with [] => false | _ => true end
  end.

(** [type(v).__name__]. *)
Definition type_name (v : pyval) : string :=
  match v with
  | PNone => "NoneType"
  | PBool _ => "bool"
  | PInt _ => "int"
  | PStr _ => "str"
  | PList _ => "list"
  | PDict _ => "dict"
  end.

(** Dictionary lookup by a text key. *)
Fixpoint dict_lookup (d : pydict) (k : string) : option pyval :=
  match d with
  | [] => None
  | (k', v) :: rest => if String.eqb k' k then Some v else dict_lookup rest k
  end.

(** [k in d]. *)
Definition dict_contains (d : pydict) (k : string) : bool :=
  match dict_lookup d k with Some _ => true | None => false end.

(** [d.get(k, default)]. *)
Definition dict_get (d : pydict) (k : string) (default : pyval) : pyval :=
  match dict_lookup d k with Some v => v | None => default end.

(** The double-quote character. *)
Definition dquote : ascii := ascii_of_nat 34.

(** Two-digit lower-case hexadecimal, for [\xhh] escapes. *)
Definition hex_digit (n : nat) : ascii :=
  if (n <? 10)%nat then ascii_of_nat (48 + n) else ascii_of_nat (87 + n).

Definition repr_char (quote : ascii) (c : ascii) : string :=
  let n := nat_of_ascii c in
  if Ascii.eqb c "\"%char then "\\"
  else if Ascii.eqb c quote then String "\"%char (String c "")
  else if (n =? 9)%nat then "\t"
  else if (n =? 10)%nat then "\n"
  else if (n =? 13)%nat then "\r"
  else if (n <? 32)%nat || (n =? 127)%nat
       then String "\"%char (String "x"%char
              (String (hex_digit (n / 16)) (String (hex_digit (n mod 16)) "")))
  else String c "".

Fixpoint repr_chars (quote : ascii) (s : string) : string :=
  match s with
  | EmptyString => EmptyString
  | String c r => repr_char quote c ++ repr_chars quote r
  end.

(** [repr(s)] for text: single quotes unless the text has a single quote and
    no double quote.  Bytes above 127 (UTF-8 sequences) are kept, as for
    printable characters. *)
Definition repr_str (s : string) : string :=
  let quote :=
    if Text.mem "'"%char s && negb (Text.mem dquote s)
    then dquote else "'"%char in
  String quote (repr_chars quote s ++ String quote "").

Definition str_int (z : Z) : string := NilZero.string_of_int (Z.to_int z).

(** [repr(v)]. *)
Fixpoint repr (v : pyval) : string :=
  match v with
  | PNone => "None"
  | PBool true => "True"
  | PBool false => "False"
  | PInt z => str_int z
  | PStr s => repr_str s
  | PList l => "[" ++ Text.join ", " (map repr l) ++ "]"
  | PDict d =>
      "{" ++ Text.join ", "
               (map (fun kv => repr_str (fst kv) ++ ": " ++ repr (snd kv)) d)
          ++ "}"
  end.

(** [str(v)], which is also how an f-string renders [{v}]. *)
Definition str (v : pyval) : string :=
  match v with
  | PStr s => s
  | _ => repr v
  end.

(** [v == "text"]: only text compares equal to text. *)
Definition eq_str (v : pyval) (s : string) : bool :=
  match v with
  | PStr t => String.eqb t s
  | _ => false
  end.

(** [d[k]] on a dictionary. *)
Definition dict_getitem (d : pydict) (k : string) : result pyval :=
  match dict_lookup d k with
  | Some v => Ret v
  | None => Raise (mkExc "KeyError" (repr_str k) None)
  end.

(** A byte that continues a UTF-8 sequence ([10xxxxxx]). *)
Definition is_continuation (c : ascii) : bool :=
  let n := nat_of_ascii c in (128 <=? n)%nat && (n <? 192)%nat.

(** The number of characters of a text: its bytes that start a UTF-8
    sequence. *)
Fixpoint char_count (s : string) : nat :=
  match s with
  | EmptyString => O
  | String c r =>
      if is_continuation c then char_count r else S (char_count r)
  end.

(** The bytes that continue the character in progress. *)
Fixpoint continuation_bytes (s : string) : string :=
  match s with
  | EmptyString => EmptyString
  | String c r =>
      if is_continuation c then String c (continuation_bytes r)
      else EmptyString
  end.

(** [len(v)]. *)
Definition len (v : pyval) : result Z :=
  match v with
  | PStr s => Ret (Z.of_nat (char_count s))
  | PList l => Ret (Z.of_nat (List.length l))
  | PDict d => Ret (Z.of_nat (List.length d))
  | _ => Raise (mkExc "TypeError"
                  ("object of type '" ++ type_name v ++ "' has no len()")
                  None)
  end.

(** [v[0]]. *)
Definition getitem0 (v : pyval) : result pyval :=
  match v with
  | PList l =>
      match l with
      | x :: _ => Ret x
      | [] => Raise (mkExc "IndexError" "list index out of range" None)
      end
  | PStr s =>
      match s with
      | String c r => Ret (PStr (String c (continuation_bytes r)))
      | EmptyString =>
          Raise (mkExc "IndexError" "string index out of range" None)
      end
  | PDict _ => Raise (mkExc "KeyError" "0" None)
  | _ => Raise (mkExc "TypeError"
                  ("'" ++ type_name v ++ "' object is not subscriptable")
                  None)
  end.

(** [v.get(k, default)]: only dictionaries have the method. *)
Definition method_get (v : pyval) (k : string) (default : pyval)
  : result pyval :=
  match v with
  | PDict d => Ret (dict_get d k default)
  | _ => Raise (mkExc "AttributeError"
                  ("'" ++ type_name v ++ "' object has no attribute 'get'")
                  None)
  end.

End Py.

(* ================================================================== *)
(** * [pathlib] on POSIX *)
(* ================================================================== *)

(** [PurePosixPath] as CPython 3.11 parses it: a root (["" ], ["/"] or
    ["//"]) and the components after it. *)
Record PurePath : Type := mkPath { root : string; parts : list string }.

Module Pathlib.

Definition sep : ascii := "/"%char.

Fixpoint leading_seps (s : string) : nat :=
  match s with
  | String c r => if Ascii.eqb c sep then S (leading_seps r) else O
  | EmptyString => O
  end.

(** [_PosixFlavour.splitroot]: exactly two leading slashes are kept. *)
Definition splitroot (s : string) : string :=
  match leading_seps s with
  | O => ""
  | 2%nat => "//"
  | _ => "/"
  end.

(** A component survives parsing when it is neither empty nor ["."]. *)
Definition keep_part (x : string) : bool :=
  negb (String.eqb x "") && negb (String.eqb x ".").

(** [PurePosixPath(s)]. *)
Definition Path (s : string) : PurePath :=
  mkPath (splitroot s) (filter keep_part (Text.split sep s)).

(** [str(p)]. *)
Definition to_str (p : PurePath) : string :=
  match root p, parts p with
  | EmptyString, [] => "."
  | r, ps => r ++ Text.join "/" ps
  end.

(** [repr(p)], as error messages embed it. *)
Definition repr (p : PurePath) : string :=
  "PosixPath(" ++ Py.repr_str (to_str p) ++ ")".

(** [p.name]: the last component, [""] when there is none. *)
Definition name (p : PurePath) : string := last (parts p) "".

(** The suffix of a file name: from its last dot, when that dot is neither
    the first nor the last character. *)
Definition name_suffix (n : string) : string :=
  match Text.rfind "."%char n with
  | Some i =>
      if (0 <? i)%nat && (i <? String.length n - 1)%nat
      then Text.drop i n else ""
  | None => ""
  end.

(** [p.suffix]. *)
Definition suffix (p : PurePath) : string := name_suffix (name p).

(** [p.stem]: the name without its suffix. *)
Definition stem (p : PurePath) : string :=
  let n := name p in
  match Text.rfind "."%char n with
  | Some i =>
      if (0 <? i)%nat && (i <? String.length n - 1)%nat
      then Text.take i n else n
  | None => n
  end.

(** [p.with_suffix(suffix)]. *)
Definition with_suffix (p : PurePath) (sfx : string) : result PurePath :=
  if Text.mem sep sfx
  then Raise (mkExc "ValueError" ("Invalid suffix " ++ Py.repr_str sfx) None)
  else if (negb (String.eqb sfx "") && negb (String.prefix "." sfx))
          || String.eqb sfx "."
  then Raise (mkExc "ValueError" ("Invalid suffix " ++ Py.repr_str sfx) None)
  else
    let n := name p in
    if String.eqb n ""
    then Raise (mkExc "ValueError" (repr p ++ " has an empty name") None)
    else
      let old_suffix := suffix p in
      let n' :=
        if String.eqb old_suffix "" then n ++ sfx
        else Text.take (String.length n - String.length old_suffix) n ++ sfx in
      Ret (mkPath (root p) (removelast (parts p) ++ [n'])%list).

(** [p / s] for a text right operand: a rooted operand replaces [p]. *)
Definition div (p : PurePath) (s : string) : PurePath :=
  let q := Path s in
  if String.eqb (root q) "" then mkPath (root p) (parts p ++ parts q)%list
  else q.

(** [p.parent]. *)
Definition parent (p : PurePath) : PurePath :=
  mkPath (root p) (removelast (parts p)).

(** [Path(v)] on a Python value: only text is path-like here. *)
Definition of_pyval (v : pyval) : result PurePath :=
  match v with
  | PStr s => Ret (Path s)
  | _ => Raise (mkExc "TypeError"
                  ("expected str, bytes or os.PathLike object, not "
                   ++ Py.type_name v) None)
  end.

End Pathlib.

(* ================================================================== *)
(** * The file system seen by [mkdir] *)
(* ================================================================== *)

Inductive file_kind : Type := Directory | RegularFile.

(** What the operating system answers to [mkdir] of a path text that names
    nothing: it refuses with an error (a missing parent, a parent that is a
    file, no permission, a name too long, a virtual file system, ...), or it
    creates the directory, after which path texts name what [after] says
    and the created text names a directory. *)
Inductive mkdir_answer : Type :=
| Created (after : string -> option file_kind)
| Refused (e : exc).

(** The part of the operating system start-up meets: what a path text
    names (nothing, a directory or a file), and what [mkdir] of a text that
    names nothing is answered with. *)
Record filesystem : Type := mkFs {
  fs_kind : string -> option file_kind;
  fs_mkdir : string -> mkdir_answer
}.

Module OS.

(** The file system once [s] has been created. *)
Definition created (fs : filesystem) (s : string)
  (after : string -> option file_kind) : filesystem :=
  mkFs (fun q => if String.eqb q s then Some Directory else after q)
       (fs_mkdir fs).

(** [os.mkdir(p)]: [FileExistsError] when [p] names something; otherwise
    the answer of the operating system. *)
Definition mkdir (fs : filesystem) (p : PurePath) : result filesystem :=
  let s := Pathlib.to_str p in
  match fs_kind fs s with
  | Some _ =>
      Raise (mkExc "FileExistsError"
               ("[Errno 17] File exists: " ++ Py.repr_str s) None)
  | None =>
      match fs_mkdir fs s with
      | Created after => Ret (created fs s after)
      | Refused e => Raise e
      end
  end.

(** [Path.is_dir()]. *)
Definition is_dir (fs : filesystem) (p : PurePath) : bool :=
  match fs_kind fs (Pathlib.to_str p) with
  | Some Directory => true
  | _ => false
  end.

(** [issubclass(cls, OSError)] for the built-in classes, by name. *)
Definition is_OSError (cls : string) : bool :=
  existsb (String.eqb cls)
    ["OSError"; "BlockingIOError"; "ChildProcessError"; "ConnectionError";
     "BrokenPipeError"; "ConnectionAbortedError"; "ConnectionRefusedError";
     "ConnectionResetError"; "FileExistsError"; "FileNotFoundError";
     "InterruptedError"; "IsADirectoryError"; "NotADirectoryError";
     "PermissionError"; "ProcessLookupError"; "TimeoutError"].

(** [Path.mkdir(parents=False, exist_ok=...)]: a [FileNotFoundError] is
    re-raised as it is (no parents are made); any other [OSError] is
    swallowed only when [exist_ok] holds and the path is a directory; any
    other error passes through. *)
Definition Path_mkdir (fs : filesystem) (p : PurePath) (exist_ok : bool)
  : result filesystem :=
  match mkdir fs p with
  | Ret fs' => Ret fs'
  | Raise e =>
      if String.eqb (exc_type e) "FileNotFoundError" then Raise e
      else if is_OSError (exc_type e)
      then if negb exist_ok || negb (is_dir fs p) then Raise e else Ret fs
      else Raise e
  | RaiseBase e => RaiseBase e
  end.

(** [os.environ] as the list of its variables; the first binding of a
    name is the one in force. *)
Fixpoint environ_lookup (environ : list (string * string)) (k : string)
  : option string :=
  match environ with
  | [] => None
  | (k', v) :: rest =>
      if String.eqb k' k then Some v else environ_lookup rest k
  end.

(** [os.environ.get(k, default)]. *)
Definition environ_get (environ : list (string * string)) (k default : string)
  : string :=
  match environ_lookup environ k with
  | Some v => v
  | None => default
  end.

End OS.

(* ================================================================== *)
(** * The [yt_dlp] collaborator and the calls made to it *)
(* ================================================================== *)

Record postprocessor : Type := mkPostprocessor {
  pp_key : string;
  preferredcodec : string;
  preferredquality : string
}.

(** The option dictionary handed to [yt_dlp.YoutubeDL].  The logger object
    is left out; the progress hooks, being closures, are counted. *)
Record ydl_params : Type := mkParams {
  no_warnings : bool;
  quiet : bool;
  audioquality : string;
  outtmpl : string;
  noplaylist : bool;
  extract_flat : bool;
  writethumbnail : bool;
  format : option string;
  postprocessors : list postprocessor;
  progress_hooks : nat
}.

(** One request to the collaborator. *)
Inductive call : Type :=
| CallExtractInfo (opts : ydl_params) (url : string) (download : bool)
| CallDownload (opts : ydl_params) (urls : list string).

(** What the collaborator does for a request, from the making of the
    [YoutubeDL] object to the end of its [with] block.  A search ends with
    an info dictionary, with [None], or with an error.  A download hands a
    sequence of status dictionaries to the progress hooks and then ends with
    a return code or with an error; an error raised by a hook ends the
    download with that error.  An error is of either kind of [result]: an
    interrupt met during a call is a [RaiseBase]. *)
Record YoutubeDL : Type := mkYoutubeDL {
  extract_info : ydl_params -> string -> bool -> result (option pydict);
  download : ydl_params -> list string -> list pydict * result Z
}.

(** Computations that call the collaborator: the calls made, in order, and
    how the computation ended. *)
Definition M (A : Type) : Type := (list call * result A)%type.

Definition ret {A} (a : A) : M A := ([], Ret a).
Definition raise {A} (e : exc) : M A := ([], Raise e).

Definition bind {A B} (m : M A) (k : A -> M B) : M B :=
  match m with
  | (log, Ret a) => let (log', r) := k a in ((log ++ log')%list, r)
  | (log, Raise e) => (log, Raise e)
  | (log, RaiseBase e) => (log, RaiseBase e)
  end.

(** [try: m except Exception as e: handler e].  An error that is not an
    instance of [Exception] is not caught. *)
Definition try_except {A} (m : M A) (handler : exc -> M A) : M A :=
  match m with
  | (log, Ret a) => (log, Ret a)
  | (log, Raise e) => let (log', r) := handler e in ((log ++ log')%list, r)
  | (log, RaiseBase e) => (log, RaiseBase e)
  end.

(** A pure step that may raise. *)
Definition lift {A} (r : result A) : M A := ([], r).

Definition bind_result {A B} (r : result A) (k : A -> result B) : result B :=
  match r with
  | Ret a => k a
  | Raise e => Raise e
  | RaiseBase e => RaiseBase e
  end.

Declare Scope py_scope.
Delimit Scope py_scope with py.
Notation "x <- m ;; k" := (bind m (fun x => k))
  (at level 61, m at next level, right associativity) : py_scope.
Notation "x <~ r ;; k" := (bind_result r (fun x => k))
  (at level 61, r at next level, right associativity) : py_scope.
Local Open Scope py_scope.

(** The line feed of the f-strings. *)
Definition nl : string := String (ascii_of_nat 10) "".

(** The three characters (seven bytes) that open the handler's error text
    in the source file. *)
Definition error_mark : string :=
  String (ascii_of_nat 226) (String (ascii_of_nat 128)
  (String (ascii_of_nat 154) (String (ascii_of_nat 195)
  (String (ascii_of_nat 185) (String (ascii_of_nat 195)
  (String (ascii_of_nat 165) "")))))).

(* ================================================================== *)
(** * [server.py] *)
(* ================================================================== *)

(** [download_path = Path(os.environ.get("DOWNLOAD_PATH", "./"))]. *)
Definition download_path (environ : list (string * string)) : PurePath :=
  Pathlib.Path (OS.environ_get environ "DOWNLOAD_PATH" "./").

(** Module start: the download root is read and
    [download_path.mkdir(exist_ok=True)] runs. *)
Definition startup (environ : list (string * string)) (fs : filesystem)
  : result (PurePath * filesystem) :=
  let dp := download_path environ in
  fs' <~ OS.Path_mkdir fs dp true ;;
  Ret (dp, fs').

Section Server.

Variable ydl : YoutubeDL.
Variable dp : PurePath.

Definition YT_DLP_BASE_OPTS : ydl_params :=
  {| no_warnings := true;
     quiet := true;
     audioquality := "0";
     outtmpl :=
       Pathlib.to_str
         (Pathlib.div (Pathlib.div dp "%(title)s") "%(title)s.%(ext)s");
     noplaylist := true;
     extract_flat := false;
     writethumbnail := true;
     format := None;
     postprocessors := [];
     progress_hooks := 0 |}.

(** The decorator: the wrapped call runs with the output streams
    redirected, and an error is caught and raised again ([raise e] of the
    error in hand leaves its [__context__] as it is). *)
Definition suppress_output {A} (func : M A) : M A :=
  try_except func (fun e => raise e).

(** [ydl.extract_info(url, download=...)]. *)
Definition ydl_extract_info (opts : ydl_params) (url : string) (dl : bool)
  : M (option pydict) :=
  ([CallExtractInfo opts url dl], extract_info ydl opts url dl).

(** The local [info_opts] of [get_youtube_info]. *)
Definition info_opts : ydl_params :=
  {| no_warnings := no_warnings YT_DLP_BASE_OPTS;
     quiet := quiet YT_DLP_BASE_OPTS;
     audioquality := audioquality YT_DLP_BASE_OPTS;
     outtmpl := outtmpl YT_DLP_BASE_OPTS;
     noplaylist := noplaylist YT_DLP_BASE_OPTS;
     extract_flat := false;
     writethumbnail := writethumbnail YT_DLP_BASE_OPTS;
     format := format YT_DLP_BASE_OPTS;
     postprocessors := postprocessors YT_DLP_BASE_OPTS;
     progress_hooks := progress_hooks YT_DLP_BASE_OPTS |}.

Definition get_youtube_info (query : string) : M pyval :=
  suppress_output (
    try_except (
      let yt_query := "ytsearch1:" ++ query in
      info <- ydl_extract_info info_opts yt_query false ;;
      match info with
      | None => ret PNone
      | Some [] => ret PNone
      | Some d =>
          if negb (Py.dict_contains d "entries") then ret PNone
          else
            entries <- lift (Py.dict_getitem d "entries") ;;
            n <- lift (Py.len entries) ;;
            if Z.eqb n 0 then ret PNone
            else
              entries' <- lift (Py.dict_getitem d "entries") ;;
              lift (Py.getitem0 entries')
      end)
    (fun e => ret PNone)).

(** The closure [progress_hook], with [downloaded_files] passed through. *)
Definition progress_hook (downloaded_files : list pyval) (d : pydict)
  : result (list pyval) :=
  status <~ Py.dict_getitem d "status" ;;
  if Py.eq_str status "finished"
  then filename <~ Py.dict_getitem d "filename" ;;
       Ret (downloaded_files ++ [filename])%list
  else Ret downloaded_files.

(** The collaborator calling the hook on each status dictionary in turn. *)
Fixpoint run_hooks (events : list pydict) (downloaded_files : list pyval)
  : result (list pyval) :=
  match events with
  | [] => Ret downloaded_files
  | d :: rest =>
      files <~ progress_hook downloaded_files d ;;
      run_hooks rest files
  end.

(** [ydl.download(urls)] with [progress_hook] registered: the list of
    downloaded files afterwards (the return code is not looked at). *)
Definition ydl_download (opts : ydl_params) (urls : list string)
  (downloaded_files : list pyval) : M (list pyval) :=
  let (events, outcome) := download ydl opts urls in
  ([CallDownload opts urls],
   files <~ run_hooks events downloaded_files ;;
   _ <~ outcome ;;
   Ret files).

(** Lines 111 to 113: the music file with its [.mp3] extension ensured. *)
Definition ensure_mp3 (music_file : pyval) : result pyval :=
  music_file_path <~ Pathlib.of_pyval music_file ;;
  if negb (String.eqb (Text.lower (Pathlib.suffix music_file_path)) ".mp3")
  then p <~ Pathlib.with_suffix music_file_path ".mp3" ;;
       Ret (PStr (Pathlib.to_str p))
  else Ret music_file.

(** The local [ydl_opts] of [download_and_store_track]; its one progress
    hook is [progress_hook]. *)
Definition ydl_opts : ydl_params :=
  {| no_warnings := no_warnings YT_DLP_BASE_OPTS;
     quiet := quiet YT_DLP_BASE_OPTS;
     audioquality := audioquality YT_DLP_BASE_OPTS;
     outtmpl := outtmpl YT_DLP_BASE_OPTS;
     noplaylist := noplaylist YT_DLP_BASE_OPTS;
     extract_flat := extract_flat YT_DLP_BASE_OPTS;
     writethumbnail := writethumbnail YT_DLP_BASE_OPTS;
     format := Some "bestaudio/best";
     postprocessors := [mkPostprocessor "FFmpegExtractAudio" "mp3" "192"];
     progress_hooks := 1 |}.

(** The f-string [success_msg], [file_name] being [Path(music_file).name]. *)
Definition success_msg (title artist : pyval) (file_name : string) : string :=
  "Downloaded and playing: '" ++ Py.str title ++ "' by " ++ Py.str artist
    ++ nl
    ++ "File saved as: " ++ file_name ++ nl
    ++ "Added to music library database." ++ nl.

Definition download_and_store_track (video_info : pyval) (query : string)
  : M string :=
  suppress_output (
    let downloaded_files := [] in
    try_except (
      let yt_query := "ytsearch1:" ++ query in
      downloaded_files <- ydl_download ydl_opts [yt_query] downloaded_files ;;
      match downloaded_files with
      | music_file :: _ =>
          music_file <- lift (ensure_mp3 music_file) ;;
          title <- lift (Py.method_get video_info "title"
                           (PStr "Unknown Title")) ;;
          artist <- lift (Py.method_get video_info "uploader"
                            (PStr "Unknown Artist")) ;;
          saved <- lift (Pathlib.of_pyval music_file) ;;
          ret (success_msg title artist (Pathlib.name saved))
      | [] =>
          ret ("Download completed for: " ++ query
               ++ ", but no files were found.")
      end)
    (fun e => raise (mkExc "Exception"
                       ("Failed to download track: " ++ exc_str e)
                       (Some e)))).

Definition download_and_play (query : string) : M string :=
  try_except (
    video_info <- get_youtube_info query ;;
    if negb (Py.truthy video_info)
    then ret "No search results found on YouTube for your query."
    else
      result <- download_and_store_track video_info query ;;
      ret result)
  (fun e =>
     let error_msg := error_mark ++ " Error processing request: "
                        ++ exc_str e in
     ret error_msg).

End Server.

Arguments ensure_mp3 : clear implicits.
Arguments progress_hook : clear implicits.
Arguments run_hooks : clear implicits.

(** The URLs of the download requests in a log of calls. *)
Definition requested_urls (log : list call) : list string :=
  flat_map (fun c => match c with
                     | CallDownload _ urls => urls
                     | CallExtractInfo _ _ _ => []
                     end) log.

(** Outcomes of the search that carry no result: an error, [None], an info
    dictionary without an entry list, or one whose entry list is empty. *)
Inductive search_without_result : result (option pydict) -> Prop :=
| search_raises (e : exc) : search_without_result (Raise e)
| search_none : search_without_result (Ret None)
| search_no_entries (d : pydict) :
    Py.dict_lookup d "entries" = None ->
    search_without_result (Ret (Some d))
| search_zero_entries (d : pydict) :
    Py.dict_lookup d "entries" = Some (PList []) ->
    search_without_result (Ret (Some d)).

(** A status dictionary that is not a completion notification. *)
Definition not_finished (d : pydict) : Prop :=
  exists status,
    Py.dict_lookup d "status" = Some status
    /\ Py.eq_str status "finished" = false.

(* ================================================================== *)
(** * The components in closed form *)
(* ================================================================== *)

(** What parsing guarantees: a known root, and components that are kept
    and hold no slash. *)
Definition path_wf (p : PurePath) : Prop :=
  (root p = "" \/ root p = "/" \/ root p = "//")
  /\ Forall (fun x => Text.mem Pathlib.sep x = false) (parts p)
  /\ Forall (fun x => Pathlib.keep_part x = true) (parts p).

(** What is left of the Fetcher once the collaborator has answered: the
    steps after [ydl.download] returns. *)
Definition finalize (video_info : pyval) (query : string)
  (downloaded_files : list pyval) : result string :=
  match downloaded_files with
  | music_file :: _ =>
      music_file <~ ensure_mp3 music_file ;;
      title <~ Py.method_get video_info "title" (PStr "Unknown Title") ;;
      artist <~ Py.method_get video_info "uploader" (PStr "Unknown Artist") ;;
      saved <~ Pathlib.of_pyval music_file ;;
      Ret (success_msg title artist (Pathlib.name saved))
  | [] => Ret ("Download completed for: " ++ query
               ++ ", but no files were found.")
  end.

(** The handler of the Fetcher: an error is wrapped. *)
Definition download_failed (r : result string) : result string :=
  match r with
  | Ret msg => Ret msg
  | Raise e => Raise (mkExc "Exception"
                        ("Failed to download track: " ++ exc_str e)
                        (Some e))
  | RaiseBase e => RaiseBase e
  end.

(** What the Resolver does with the answer of the search. *)
Definition pick_first (info : option pydict) : result pyval :=
  match info with
  | None => Ret PNone
  | Some [] => Ret PNone
  | Some d =>
      if negb (Py.dict_contains d "entries") then Ret PNone
      else
        entries <~ Py.dict_getitem d "entries" ;;
        n <~ Py.len entries ;;
        if Z.eqb n 0 then Ret PNone
        else
          entries' <~ Py.dict_getitem d "entries" ;;
          Py.getitem0 entries'
  end.

(** The handler of the Resolver: an error becomes [None]. *)
Definition none_on_error (r : result pyval) : result pyval :=
  match r with
  | Ret v => Ret v
  | Raise _ => Ret PNone
  | RaiseBase e => RaiseBase e
  end.

(** The Request Handler's own handler: an error becomes the error text. *)
Definition error_text (r : result string) : result string :=
  match r with
  | Ret msg => Ret msg
  | Raise e => Ret (error_mark ++ " Error processing request: " ++ exc_str e)
  | RaiseBase e => RaiseBase e
  end.

(** No collaborator call for the query ends with an error that is not an
    instance of [Exception]. *)
Definition no_interrupt (ydl : YoutubeDL) (dp : PurePath) (query : string)
  : Prop :=
  (forall e, extract_info ydl (info_opts dp) ("ytsearch1:" ++ query) false
             <> RaiseBase e)
  /\ (forall e, snd (download ydl (ydl_opts dp) ["ytsearch1:" ++ query])
                <> RaiseBase e).

(** A status dictionary that is a completion notification, as
    [progress_hook] tests it. *)
Definition is_finished (d : pydict) : bool :=
  match Py.dict_lookup d "status" with
  | Some status => Py.eq_str status "finished"
  | None => false
  end.

(** The file names of the completion notifications among [events], in the
    order they were handed out. *)
Definition reported_files (events : list pydict) : list pyval :=
  flat_map (fun d =>
              if is_finished d
              then match Py.dict_lookup d "filename" with
                   | Some f => [f]
                   | None => []
                   end
              else []) events.

(** A status dictionary the hook can read: it has a status, and a file name
    when the status is ["finished"]. *)
Definition readable_event (d : pydict) : Prop :=
  exists status,
    Py.dict_lookup d "status" = Some status
    /\ (Py.eq_str status "finished" = true ->
        exists f, Py.dict_lookup d "filename" = Some f).

(** The search request of the Resolver and the download request of the
    Fetcher for a query. *)
Definition search_call (dp : PurePath) (query : string) : call :=
  CallExtractInfo (info_opts dp) ("ytsearch1:" ++ query) false.

Definition download_call (dp : PurePath) (query : string) : call :=
  CallDownload (ydl_opts dp) ["ytsearch1:" ++ query].

(* ================================================================== *)
(** * Fixtures *)
(* ================================================================== *)

Module Fixture.

Definition believer : pydict :=
  [("id", PStr "7wtfhZwyrcc"); ("title", PStr "Believer");
   ("uploader", PStr "Imagine Dragons")].

Definition thunder : pydict :=
  [("id", PStr "fKopy74weus"); ("title", PStr "Thunder");
   ("uploader", PStr "Imagine Dragons")].

Definition search_hit : pydict := [("entries", PList [PDict believer])].

Definition downloading : pydict :=
  [("status", PStr "downloading");
   ("filename", PStr "music/Believer/Believer.webm")].

Definition finished : pydict :=
  [("status", PStr "finished");
   ("filename", PStr "music/Believer/Believer.webm")].

(** The search finds the item; the download reports the file it wrote
    before transcoding. *)
Definition ydl_ok : YoutubeDL :=
  mkYoutubeDL (fun _ _ _ => Ret (Some search_hit))
              (fun _ _ => ([downloading; finished], Ret 0%Z)).

(** The search finds the item; the download fails. *)
Definition ydl_download_error : YoutubeDL :=
  mkYoutubeDL (fun _ _ _ => Ret (Some search_hit))
              (fun _ _ => ([downloading],
                           Raise (mkExc "DownloadError"
                                    "ERROR: unable to download video data"
                                    None))).

(** The search fails. *)
Definition ydl_search_error : YoutubeDL :=
  mkYoutubeDL (fun _ _ _ => Raise (mkExc "DownloadError"
                                     "ERROR: network is unreachable" None))
              (fun _ _ => ([downloading; finished], Ret 0%Z)).



(** The search succeeds with an empty first entry. *)
Definition ydl_empty_entry : YoutubeDL :=
  mkYoutubeDL (fun _ _ _ => Ret (Some [("entries", PList [PDict []])]))
              (fun _ _ => ([downloading; finished], Ret 0%Z)).

(** The download returns without a completion notification. *)
Definition ydl_no_notice : YoutubeDL :=
  mkYoutubeDL (fun _ _ _ => Ret (Some search_hit))
              (fun _ _ => ([downloading], Ret 0%Z)).

Definition music : PurePath := Pathlib.Path "music".

(** What path texts name when only the working directory is there. *)
Definition cwd_only (q : string) : option file_kind :=
  if String.eqb q "." then Some Directory else None.

(** A plain writable file system holding the working directory only:
    [mkdir] is refused when the parent of the path is missing or is a file,
    and otherwise creates the directory, which every spelling that
    [pathlib] reads as the same path then names. *)
Definition fs_cwd_only : filesystem :=
  mkFs cwd_only
       (fun s =>
          match cwd_only (Pathlib.to_str (Pathlib.parent (Pathlib.Path s)))
          with
          | Some Directory =>
              Created (fun q =>
                         if String.eqb (Pathlib.to_str (Pathlib.Path q)) s
                         then Some Directory else cwd_only q)
          | Some RegularFile =>
              Refused (mkExc "NotADirectoryError"
                         ("[Errno 20] Not a directory: " ++ Py.repr_str s)
                         None)
          | None =>
              Refused (mkExc "FileNotFoundError"
                         ("[Errno 2] No such file or directory: "
                          ++ Py.repr_str s) None)
          end).

(** That file system once [music] has been made in it. *)
Definition fs_with_music : filesystem :=
  OS.created fs_cwd_only "music"
    (fun q => if String.eqb (Pathlib.to_str (Pathlib.Path q)) "music"
              then Some Directory else cwd_only q).

End Fixture.

(* ================================================================== *)
(** * Facts about text *)
(* ================================================================== *)

Module TextFacts.
Import Text.

Lemma append_nil_r (s : string) : s ++ "" = s.
Proof. induction s as [|c s IH]; simpl; [reflexivity | now rewrite IH]. Qed.

Lemma append_assoc (a b c : string) : (a ++ b) ++ c = a ++ (b ++ c).
Proof. induction a as [|x a IH]; simpl; [reflexivity | now rewrite IH]. Qed.

Lemma length_append (a b : string) :
  String.length (a ++ b) = (String.length a + String.length b)%nat.
Proof. induction a as [|x a IH]; simpl; [reflexivity | now rewrite IH]. Qed.

Lemma prefix_append (a b : string) : String.prefix a (a ++ b) = true.
Proof.
  induction a as [|x a IH]; simpl.
  - now destruct b.
  - destruct (ascii_dec x x) as [_|N]; [exact IH | now elim N].
Qed.




Lemma mem_append (c : ascii) (a b : string) :
  mem c (a ++ b) = mem c a || mem c b.
Proof.
  induction a as [|x a IH]; simpl; [reflexivity|].
  now rewrite IH, orb_assoc.
Qed.

Lemma mem_take (c : ascii) (n : nat) (s : string) :
  mem c s = false -> mem c (take n s) = false.
Proof.
  revert s; induction n as [|n IH]; intros [|x s] H; simpl in *; auto.
  apply orb_false_iff in H as [Hx Hs].
  now rewrite Hx, (IH _ Hs).
Qed.

Lemma take_append_length (a b : string) : take (String.length a) (a ++ b) = a.
Proof. induction a as [|x a IH]; simpl; [now destruct b | now rewrite IH]. Qed.

Lemma drop_append_length (a b : string) : drop (String.length a) (a ++ b) = b.
Proof. induction a as [|x a IH]; simpl; [reflexivity | exact IH]. Qed.

Lemma take_drop (n : nat) (s : string) : take n s ++ drop n s = s.
Proof.
  revert s; induction n as [|n IH]; intros [|x s]; simpl; auto.
  now rewrite IH.
Qed.

Lemma length_take (n : nat) (s : string) :
  (n <= String.length s)%nat -> String.length (take n s) = n.
Proof.
  revert s; induction n as [|n IH]; intros [|x s] H; simpl in *;
    try reflexivity; try lia.
  rewrite IH; lia.
Qed.

Lemma length_drop (n : nat) (s : string) :
  String.length (drop n s) = (String.length s - n)%nat.
Proof.
  revert s; induction n as [|n IH]; intros [|x s]; simpl; auto.
Qed.

Lemma rfind_lt (c : ascii) (s : string) (i : nat) :
  rfind c s = Some i -> (i < String.length s)%nat.
Proof.
  revert i; induction s as [|a s IH]; intros i H; simpl in *; [discriminate|].
  destruct (rfind c s) as [j|].
  - injection H as <-. specialize (IH j eq_refl). lia.
  - destruct (Ascii.eqb a c); [injection H as <-; lia | discriminate].
Qed.

Lemma rfind_append (c : ascii) (a b : string) :
  rfind c (a ++ b) =
  match rfind c b with
  | Some i => Some (String.length a + i)%nat
  | None => rfind c a
  end.
Proof.
  induction a as [|x a IH]; simpl.
  - now destruct (rfind c b).
  - rewrite IH. now destruct (rfind c b).
Qed.

(** [split] never gives the empty list. *)
Lemma split_not_nil (c : ascii) (s : string) : split c s <> [].
Proof.
  destruct s as [|a s]; simpl; [discriminate|].
  destruct (Ascii.eqb a c); [discriminate|].
  destruct (split c s); discriminate.
Qed.

(** No piece of a split holds the separator. *)
Lemma split_no_sep (c : ascii) (s : string) :
  Forall (fun x => mem c x = false) (split c s).
Proof.
  induction s as [|a s IH]; simpl.
  - constructor; [reflexivity | constructor].
  - destruct (Ascii.eqb a c) eqn:E.
    + constructor; [reflexivity | exact IH].
    + destruct (split c s) as [|h t].
      * constructor; [simpl; now rewrite E | constructor].
      * inversion IH as [|? ? Hh Ht]; subst.
        constructor; [simpl; now rewrite E, Hh | exact Ht].
Qed.

Lemma split_no_sep_one (c : ascii) (x : string) :
  mem c x = false -> split c x = [x].
Proof.
  induction x as [|a x IH]; simpl; intros H; [reflexivity|].
  apply orb_false_iff in H as [Ha Hx].
  now rewrite Ha, (IH Hx).
Qed.

Lemma split_append_sep (c : ascii) (x rest : string) :
  mem c x = false ->
  split c (x ++ String c rest) = x :: split c rest.
Proof.
  induction x as [|a x IH]; simpl; intros H.
  - now rewrite Ascii.eqb_refl.
  - apply orb_false_iff in H as [Ha Hx].
    now rewrite Ha, (IH Hx).
Qed.

(** Joining pieces that hold no slash and splitting again gives the
    pieces back. *)
Lemma split_join (ps : list string) :
  ps <> [] ->
  Forall (fun x => mem "/"%char x = false) ps ->
  split "/"%char (join "/" ps) = ps.
Proof.
  induction ps as [|p ps IH]; intros Hne Hall; [congruence|].
  inversion Hall as [|? ? Hp Hps]; subst.
  destruct ps as [|p' ps].
  - simpl. now apply split_no_sep_one.
  - change (join "/" (p :: p' :: ps))
      with (p ++ String "/"%char (join "/" (p' :: ps))).
    rewrite split_append_sep by exact Hp.
    rewrite IH; [reflexivity | discriminate | exact Hps].
Qed.

Lemma lower_mp3 : lower ".mp3" = ".mp3".
Proof. reflexivity. Qed.

End TextFacts.

(* ================================================================== *)
(** * Facts about paths *)
(* ================================================================== *)

Module PathFacts.
Import Text TextFacts Pathlib.

Lemma filter_all {A} (f : A -> bool) (l : list A) :
  Forall (fun x => f x = true) l -> filter f l = l.
Proof.
  induction 1 as [|x l Hx _ IH]; simpl; [reflexivity|].
  now rewrite Hx, IH.
Qed.

Lemma Forall_filter_keeps {A} (P : A -> Prop) (f : A -> bool) (l : list A) :
  Forall P l -> Forall P (filter f l).
Proof.
  induction 1 as [|x l Hx _ IH]; simpl; [constructor|].
  destruct (f x); [constructor; assumption | assumption].
Qed.

Lemma Forall_filter_holds {A} (f : A -> bool) (l : list A) :
  Forall (fun x => f x = true) (filter f l).
Proof.
  induction l as [|x l IH]; simpl; [constructor|].
  destruct (f x) eqn:E; [constructor; assumption | assumption].
Qed.

Lemma Forall_removelast {A} (P : A -> Prop) (l : list A) :
  Forall P l -> Forall P (removelast l).
Proof.
  induction 1 as [|x l Hx Hl IH]; simpl; [constructor|].
  destruct l; [constructor | constructor; assumption].
Qed.

Lemma Forall_last {A} (P : A -> Prop) (l : list A) (d : A) :
  l <> [] -> Forall P l -> P (last l d).
Proof.
  intros Hne Hl.
  rewrite (app_removelast_last d Hne) in Hl.
  apply Forall_app in Hl as [_ Hl]. now inversion Hl.
Qed.

Lemma splitroot_cases (s : string) :
  splitroot s = "" \/ splitroot s = "/" \/ splitroot s = "//".
Proof.
  unfold splitroot.
  destruct (leading_seps s) as [|[|[|n]]]; auto.
Qed.

Lemma Path_wf (s : string) : path_wf (Path s).
Proof.
  repeat split; simpl.
  - apply splitroot_cases.
  - apply Forall_filter_keeps, split_no_sep.
  - apply Forall_filter_holds.
Qed.

Lemma leading_seps_join (x : string) (ps : list string) :
  mem sep x = false -> keep_part x = true ->
  leading_seps (join "/" (x :: ps)) = 0%nat.
Proof.
  intros Hm Hk.
  destruct x as [|a x]; [discriminate|].
  simpl in Hm. apply orb_false_iff in Hm as [Ha _].
  destruct ps; simpl; now rewrite Ha.
Qed.

(** Printing a parsed path and parsing the text again gives the path. *)
Lemma Path_to_str (p : PurePath) : path_wf p -> Path (to_str p) = p.
Proof.
  destruct p as [r ps]. intros (Hr & Hsep & Hkeep); simpl in *.
  destruct ps as [|x ps].
  - destruct Hr as [-> | [-> | ->]]; reflexivity.
  - assert (Hj : split sep (join "/" (x :: ps)) = x :: ps)
      by (apply split_join; [discriminate | exact Hsep]).
    assert (Hl : leading_seps (join "/" (x :: ps)) = 0%nat)
      by (inversion Hsep; inversion Hkeep; subst;
          now apply leading_seps_join).
    assert (Hf : filter keep_part (x :: ps) = x :: ps)
      by now apply filter_all.
    destruct Hr as [-> | [-> | ->]]; unfold Path, to_str, splitroot;
      cbn [root parts].
    + change ("" ++ join "/" (x :: ps)) with (join "/" (x :: ps)).
      now rewrite Hl, Hj, Hf.
    + change ("/" ++ join "/" (x :: ps))
        with (String sep (join "/" (x :: ps))).
      cbn [leading_seps split]. rewrite Ascii.eqb_refl.
      cbn [filter keep_part String.eqb negb andb].
      now rewrite Hl, Hj, Hf.
    + change ("//" ++ join "/" (x :: ps))
        with (String sep (String sep (join "/" (x :: ps)))).
      cbn [leading_seps split]. rewrite Ascii.eqb_refl.
      cbn [filter keep_part String.eqb negb andb].
      now rewrite Hl, Hj, Hf.
Qed.

(** A name made of a non-empty stem and [".mp3"] has the suffix [".mp3"]. *)
Lemma name_suffix_mp3 (x : string) :
  x <> "" -> name_suffix (x ++ ".mp3") = ".mp3".
Proof.
  intros Hx. unfold name_suffix.
  rewrite rfind_append. cbn [rfind Ascii.eqb Bool.eqb].
  rewrite length_append. cbn [String.length].
  assert (0 < String.length x)%nat by (destruct x; [congruence | simpl; lia]).
  replace (0 <? String.length x + 0)%nat with true
    by (symmetry; apply Nat.ltb_lt; lia).
  replace (String.length x + 0 <? String.length x + 4 - 1)%nat with true
    by (symmetry; apply Nat.ltb_lt; lia).
  cbn [andb]. rewrite Nat.add_0_r. apply drop_append_length.
Qed.

(** The suffix test of [name_suffix] and [stem], spelled out. *)
Lemma suffix_stem_cases (n : string) :
  (exists i, rfind "."%char n = Some i
             /\ (0 < i < String.length n - 1)%nat
             /\ name_suffix n = drop i n
             /\ stem (mkPath "" [n]) = take i n)
  \/ (name_suffix n = "" /\ stem (mkPath "" [n]) = n).
Proof.
  unfold stem, name_suffix, name. cbn [parts last].
  destruct (rfind "."%char n) as [i|]; [|right; split; reflexivity].
  destruct ((0 <? i)%nat && (i <? String.length n - 1)%nat) eqn:E.
  - left. exists i. apply andb_true_iff in E as [E1 E2].
    apply Nat.ltb_lt in E1, E2. repeat split; auto.
  - right. split; reflexivity.
Qed.

Lemma stem_of_name (p : PurePath) : stem p = stem (mkPath "" [name p]).
Proof. reflexivity. Qed.

Lemma stem_not_empty (p : PurePath) : name p <> "" -> stem p <> "".
Proof.
  intros Hn. rewrite stem_of_name.
  destruct (suffix_stem_cases (name p)) as [(i & _ & Hi & _ & ->) | [_ ->]];
    [|exact Hn].
  intros E. apply (f_equal String.length) in E.
  rewrite length_take in E by lia. simpl in E. lia.
Qed.

Lemma stem_no_sep (p : PurePath) :
  mem sep (name p) = false -> mem sep (stem p) = false.
Proof.
  intros Hn. rewrite stem_of_name.
  destruct (suffix_stem_cases (name p)) as [(i & _ & _ & _ & ->) | [_ ->]];
    [now apply mem_take | exact Hn].
Qed.

(** [with_suffix(".mp3")] on a path with a name: the last component becomes
    its stem followed by [".mp3"]. *)
Lemma with_suffix_mp3 (p : PurePath) :
  name p <> "" ->
  with_suffix p ".mp3" =
  Ret (mkPath (root p) (removelast (parts p) ++ [(stem p ++ ".mp3")%string])%list).
Proof.
  intros Hn. unfold with_suffix.
  cbn [mem sep Ascii.eqb Bool.eqb orb String.eqb String.prefix negb andb].
  destruct (ascii_dec "."%char "."%char) as [_|N]; [|now elim N].
  cbn [negb andb orb].
  destruct (String.eqb (name p) "") eqn:E;
    [apply String.eqb_eq in E; contradiction|].
  unfold suffix. rewrite (stem_of_name p).
  destruct (suffix_stem_cases (name p))
    as [(i & _ & Hi & -> & ->) | [-> ->]]; [|reflexivity].
  assert (Hd : String.eqb (drop i (name p)) "" = false).
  { apply String.eqb_neq. intros E'. apply (f_equal String.length) in E'.
    rewrite length_drop in E'. simpl in E'. lia. }
  rewrite Hd, length_drop.
  replace (String.length (name p) - (String.length (name p) - i))%nat
    with i by lia.
  reflexivity.
Qed.

(** The result of [with_suffix(".mp3")] is again a parsed path. *)
Lemma with_suffix_mp3_wf (p : PurePath) :
  path_wf p -> name p <> "" ->
  path_wf (mkPath (root p) (removelast (parts p) ++ [(stem p ++ ".mp3")%string])%list).
Proof.
  intros (Hr & Hsep & Hkeep) Hn.
  assert (Hne : parts p <> [])
    by (intros E; apply Hn; unfold name; now rewrite E).
  repeat split; cbn [root parts].
  - exact Hr.
  - apply Forall_app; split; [now apply Forall_removelast|].
    constructor; [|constructor].
    rewrite mem_append. rewrite stem_no_sep; [reflexivity|].
    unfold name. now apply (Forall_last (P := fun x => mem sep x = false)).
  - apply Forall_app; split; [now apply Forall_removelast|].
    constructor; [|constructor].
    pose proof (stem_not_empty p Hn) as Hs.
    destruct (stem p) as [|a [|b st]]; [congruence | |];
      unfold keep_part; cbn [append String.eqb];
      destruct (Ascii.eqb a "."%char); reflexivity.
Qed.

Lemma name_with_suffix (r : string) (ps : list string) (n : string) :
  name (mkPath r (ps ++ [n])%list) = n.
Proof. unfold name; cbn [parts]. apply last_last. Qed.

End PathFacts.

(* ================================================================== *)
(** * Facts about the server *)
(* ================================================================== *)

Section ServerFacts.

Variable ydl : YoutubeDL.
Variable dp : PurePath.

Import Text TextFacts Pathlib PathFacts.

(** The decorator changes neither the calls nor the outcome. *)
Lemma suppress_output_id {A} (m : M A) : suppress_output m = m.
Proof.
  destruct m as [log [a | e | e]];
    unfold suppress_output, try_except, raise;
    [reflexivity | now rewrite app_nil_r | reflexivity].
Qed.

(** The Fetcher makes one call, and its outcome is that of the call
    followed by [finalize], errors wrapped. *)
Lemma download_and_store_track_eq (video_info : pyval) (query : string) :
  download_and_store_track ydl dp video_info query =
  ([CallDownload (ydl_opts dp) ["ytsearch1:" ++ query]],
   download_failed
     (files <~ snd (ydl_download ydl (ydl_opts dp)
                      ["ytsearch1:" ++ query] []) ;;
      finalize video_info query files)).
Proof.
  unfold download_and_store_track. rewrite suppress_output_id.
  unfold ydl_download.
  destruct (download ydl (ydl_opts dp) ["ytsearch1:" ++ query])
    as [events outcome].
  cbn [snd].
  destruct (run_hooks events []) as [files | e | e]; cbn;
    try reflexivity.
  destruct outcome as [rc | e | e]; cbn; try reflexivity.
  destruct files as [|music_file files]; cbn; [reflexivity|].
  destruct (ensure_mp3 music_file) as [mf | e | e]; cbn; try reflexivity.
  destruct (Py.method_get video_info "title" (PStr "Unknown Title"))
    as [title | e | e]; cbn; try reflexivity.
  destruct (Py.method_get video_info "uploader" (PStr "Unknown Artist"))
    as [artist | e | e]; cbn; try reflexivity.
  destruct (of_pyval mf) as [saved | e | e]; cbn; reflexivity.
Qed.

(** The Resolver makes one call; its outcome is that of the search
    followed by [pick_first], errors turned into [None]. *)
Lemma get_youtube_info_eq (query : string) :
  get_youtube_info ydl dp query =
  ([CallExtractInfo (info_opts dp) ("ytsearch1:" ++ query) false],
   none_on_error
     (info <~ extract_info ydl (info_opts dp)
                ("ytsearch1:" ++ query) false ;;
      pick_first info)).
Proof.
  unfold get_youtube_info. rewrite suppress_output_id.
  unfold ydl_extract_info.
  destruct (extract_info ydl (info_opts dp) ("ytsearch1:" ++ query) false)
    as [[d|] | e | e]; cbn; try reflexivity.
  destruct d as [|kv d]; cbn; [reflexivity|].
  destruct (Py.dict_contains (kv :: d) "entries"); cbn; [|reflexivity].
  destruct (Py.dict_getitem (kv :: d) "entries") as [entries | e | e]; cbn;
    try reflexivity.
  destruct (Py.len entries) as [n | e | e]; cbn; try reflexivity.
  destruct (Z.eqb n 0); cbn; [reflexivity|].
  destruct (Py.getitem0 entries); reflexivity.
Qed.

(** The Request Handler in terms of the two components. *)
Lemma download_and_play_eq (query : string) :
  download_and_play ydl dp query =
  let found := snd (get_youtube_info ydl dp query) in
  match found with
  | Ret video_info =>
      if Py.truthy video_info
      then
        ((fst (get_youtube_info ydl dp query)
            ++ fst (download_and_store_track ydl dp video_info query))%list,
         error_text (snd (download_and_store_track ydl dp video_info query)))
      else (fst (get_youtube_info ydl dp query),
            Ret "No search results found on YouTube for your query.")
  | Raise e =>
      (fst (get_youtube_info ydl dp query),
       Ret (error_mark ++ " Error processing request: " ++ exc_str e))
  | RaiseBase e => (fst (get_youtube_info ydl dp query), RaiseBase e)
  end.
Proof.
  unfold download_and_play.
  destruct (get_youtube_info ydl dp query) as [log [v | e | e]];
    cbn [fst snd bind try_except ret].
  - destruct (Py.truthy v); cbn [negb fst snd ret].
    + destruct (download_and_store_track ydl dp v query)
        as [log' [m | e | e]];
        cbn [fst snd bind try_except ret error_text];
        now rewrite ?app_nil_r.
    + now rewrite ?app_nil_r.
  - now rewrite ?app_nil_r.
  - reflexivity.
Qed.

(** Neither the text types nor the hook raise anything but instances of
    [Exception]. *)
Lemma run_hooks_no_base (events : list pydict) (files : list pyval)
  (e : exc) : run_hooks events files <> RaiseBase e.
Proof.
  revert files; induction events as [|d events IH]; intros files;
    [discriminate|].
  cbn [run_hooks]. unfold progress_hook, Py.dict_getitem.
  destruct (Py.dict_lookup d "status") as [status|]; cbn [bind_result];
    [|discriminate].
  destruct (Py.eq_str status "finished"); [|apply IH].
  destruct (Py.dict_lookup d "filename"); cbn [bind_result];
    [apply IH | discriminate].
Qed.

Lemma finalize_no_base (video_info : pyval) (query : string)
  (files : list pyval) (e : exc) :
  finalize video_info query files <> RaiseBase e.
Proof.
  destruct files as [|music_file files]; [discriminate|].
  cbn [finalize]. unfold ensure_mp3.
  destruct music_file; cbn [of_pyval bind_result]; try discriminate.
  assert (Hm : forall k dflt,
            Py.method_get video_info k dflt <> RaiseBase e)
    by (intros; destruct video_info; discriminate).
  assert (Hrest : forall mf,
            (exists f, mf = PStr f) ->
            (title <~ Py.method_get video_info "title"
                        (PStr "Unknown Title") ;;
             artist <~ Py.method_get video_info "uploader"
                         (PStr "Unknown Artist") ;;
             saved <~ of_pyval mf ;;
             Ret (success_msg title artist (name saved))) <> RaiseBase e).
  { intros mf [f ->].
    destruct (Py.method_get video_info "title" (PStr "Unknown Title"))
      as [t | e' | e'] eqn:Ht; cbn [bind_result]; try discriminate.
    - destruct (Py.method_get video_info "uploader" (PStr "Unknown Artist"))
        as [a | e' | e'] eqn:Ha; cbn [bind_result of_pyval];
        try discriminate.
      intros [= ->]. now apply (Hm "uploader" (PStr "Unknown Artist")).
    - intros [= ->]. now apply (Hm "title" (PStr "Unknown Title")). }
  destruct (negb (String.eqb (lower (suffix (Path s))) ".mp3")).
  - destruct (with_suffix (Path s) ".mp3") as [p | e' | e'] eqn:Hw;
      cbn [bind_result]; try discriminate.
    + apply Hrest. eexists; reflexivity.
    + exfalso. revert Hw. unfold with_suffix.
      repeat match goal with
             | |- context [if ?b then _ else _] => destruct b
             end; discriminate.
  - cbn [bind_result]. apply Hrest. eexists; reflexivity.
Qed.

End ServerFacts.

(* ================================================================== *)
(** * The Fetcher's request *)
(* ================================================================== *)

(** C1, as the code has it: whatever item the Fetcher is given, the one
    request it sends to the download collaborator is the first-result search
    ["ytsearch1:<query>"] built from the original query text, under the
    Fetcher's fixed options; no field of the item is part of the request. *)
Theorem fetch_request_is_query_search
  (ydl : YoutubeDL) (dp : PurePath) (video_info : pyval) (query : string) :
  fst (download_and_store_track ydl dp video_info query)
  = [CallDownload (ydl_opts dp) ["ytsearch1:" ++ query]]
  /\ requested_urls (fst (download_and_store_track ydl dp video_info query))
     = ["ytsearch1:" ++ query].
Proof.
  rewrite download_and_store_track_eq. split; reflexivity.
Qed.

(** C1 fails as stated: for the fixture item, whose identifier is
    [7wtfhZwyrcc], the only URL requested is the search for the query text,
    which does not hold the identifier; and an item with another identifier
    leads to the very same calls. *)
Lemma fetch_request_does_not_name_item :
  let query := "Imagine Dragons Believer" in
  let log := fst (download_and_store_track Fixture.ydl_ok Fixture.music
                    (PDict Fixture.believer) query) in
  Py.dict_lookup Fixture.believer "id" = Some (PStr "7wtfhZwyrcc")
  /\ requested_urls log = ["ytsearch1:Imagine Dragons Believer"]
  /\ Forall (fun url => Text.is_substring "7wtfhZwyrcc" url = false)
            (requested_urls log)
  /\ Py.dict_lookup Fixture.thunder "id" <> Py.dict_lookup Fixture.believer "id"
  /\ fst (download_and_store_track Fixture.ydl_ok Fixture.music
            (PDict Fixture.thunder) query) = log.
Proof.
  cbv zeta. repeat split; try reflexivity.
  - repeat constructor.
  - discriminate.
Qed.

(** C9: for two resolved items and one query the Fetcher sends the same
    request, the search for ["ytsearch1:<query>"]; and when the two items
    give the same answers to [.get("title", ...)] and
    [.get("uploader", ...)], the Fetcher's whole outcome is the same. *)
Theorem fetch_request_independent_of_item
  (ydl : YoutubeDL) (dp : PurePath) (item1 item2 : pyval) (query : string) :
  fst (download_and_store_track ydl dp item1 query)
  = fst (download_and_store_track ydl dp item2 query)
  /\ requested_urls (fst (download_and_store_track ydl dp item1 query))
     = ["ytsearch1:" ++ query]
  /\ (Py.method_get item1 "title" (PStr "Unknown Title")
      = Py.method_get item2 "title" (PStr "Unknown Title") ->
      Py.method_get item1 "uploader" (PStr "Unknown Artist")
      = Py.method_get item2 "uploader" (PStr "Unknown Artist") ->
      download_and_store_track ydl dp item1 query
      = download_and_store_track ydl dp item2 query).
Proof.
  rewrite !download_and_store_track_eq. cbn [fst].
  repeat split.
  intros Ht Ha. f_equal. f_equal.
  destruct (snd (ydl_download ydl (ydl_opts dp) ["ytsearch1:" ++ query] []))
    as [[|music_file files] | e | e]; cbn [bind_result finalize];
    try reflexivity.
  now rewrite Ht, Ha.
Qed.

(** Two items that differ in identifier and in every other field but title
    and uploader. *)
Lemma fetch_request_independent_of_item_witness :
  download_and_store_track Fixture.ydl_ok Fixture.music
    (PDict Fixture.believer) "Believer"
  = download_and_store_track Fixture.ydl_ok Fixture.music
      (PDict [("uploader", PStr "Imagine Dragons");
              ("title", PStr "Believer"); ("id", PStr "other")])
      "Believer".
Proof.
  apply (fetch_request_independent_of_item Fixture.ydl_ok Fixture.music
           (PDict Fixture.believer)
           (PDict [("uploader", PStr "Imagine Dragons");
                   ("title", PStr "Believer"); ("id", PStr "other")])
           "Believer"); reflexivity.
Defined.

(* ================================================================== *)
(** * The Fetcher's outcomes *)
(* ================================================================== *)

(** Status dictionaries that are not completion notifications leave the
    list of downloaded files as it was. *)
Lemma run_hooks_not_finished (events : list pydict) (files : list pyval) :
  Forall not_finished events -> run_hooks events files = Ret files.
Proof.
  induction 1 as [|d events (status & Hs & Hne) _ IH]; [reflexivity|].
  cbn [run_hooks]. unfold progress_hook, Py.dict_getitem.
  rewrite Hs. cbn [bind_result]. rewrite Hne. cbn [bind_result]. exact IH.
Qed.

(** C5: when the download returns and none of the status dictionaries it
    handed out was a completion notification, the Fetcher returns (it does
    not raise) the message that the download completed but no files were
    found. *)
Theorem no_completion_notice_is_reported
  (ydl : YoutubeDL) (dp : PurePath) (video_info : pyval) (query : string)
  (events : list pydict) (rc : Z) :
  download ydl (ydl_opts dp) ["ytsearch1:" ++ query] = (events, Ret rc) ->
  Forall not_finished events ->
  download_and_store_track ydl dp video_info query
  = ([CallDownload (ydl_opts dp) ["ytsearch1:" ++ query]],
     Ret ("Download completed for: " ++ query
          ++ ", but no files were found.")).
Proof.
  intros Hd Hev. rewrite download_and_store_track_eq.
  unfold ydl_download. rewrite Hd. cbn [snd].
  rewrite (run_hooks_not_finished [] Hev). reflexivity.
Qed.

Lemma no_completion_notice_is_reported_witness :
  download_and_store_track Fixture.ydl_no_notice Fixture.music
    (PDict Fixture.believer) "Believer"
  = ([CallDownload (ydl_opts Fixture.music) ["ytsearch1:Believer"]],
     Ret "Download completed for: Believer, but no files were found.").
Proof.
  apply (@no_completion_notice_is_reported Fixture.ydl_no_notice
           Fixture.music (PDict Fixture.believer) "Believer"
           [Fixture.downloading] 0%Z).
  - reflexivity.
  - constructor; [|constructor].
    exists (PStr "downloading"). split; reflexivity.
Defined.

(** C6, as the code has it: when the download call raises an error [e]
    that is an instance of [Exception], the Fetcher raises one error of the
    plain class [Exception] whose text is ["Failed to download track: "]
    followed by [str(e)], and whose [__context__] is [e] itself: the
    original error, with its class and its own context, stays attached to
    the new one. *)
Theorem download_error_is_wrapped
  (ydl : YoutubeDL) (dp : PurePath) (video_info : pyval) (query : string)
  (e : exc) :
  snd (ydl_download ydl (ydl_opts dp) ["ytsearch1:" ++ query] []) = Raise e ->
  download_and_store_track ydl dp video_info query
  = ([CallDownload (ydl_opts dp) ["ytsearch1:" ++ query]],
     Raise (mkExc "Exception" ("Failed to download track: " ++ exc_str e)
              (Some e))).
Proof.
  intros He. rewrite download_and_store_track_eq, He. reflexivity.
Qed.

Lemma download_error_is_wrapped_witness :
  download_and_store_track Fixture.ydl_download_error Fixture.music
    (PDict Fixture.believer) "Believer"
  = ([CallDownload (ydl_opts Fixture.music) ["ytsearch1:Believer"]],
     Raise (mkExc "Exception"
              "Failed to download track: ERROR: unable to download video data"
              (Some (mkExc "DownloadError"
                       "ERROR: unable to download video data" None)))).
Proof.
  apply (@download_error_is_wrapped Fixture.ydl_download_error Fixture.music
           (PDict Fixture.believer) "Believer"
           (mkExc "DownloadError" "ERROR: unable to download video data"
              None)).
  reflexivity.
Defined.

(** C6 fails as stated: the download of the fixture raises a
    [DownloadError]; the error the Fetcher raises has that very error as its
    [__context__], class name included, so the original type and context are
    not discarded. *)
Lemma wrapped_error_keeps_the_original :
  exists wrapped original : exc,
    snd (download_and_store_track Fixture.ydl_download_error Fixture.music
           (PDict Fixture.believer) "Believer") = Raise wrapped
    /\ exc_context wrapped = Some original
    /\ exc_type original = "DownloadError"
    /\ original = mkExc "DownloadError"
                    "ERROR: unable to download video data" None.
Proof.
  do 2 eexists. repeat split.
Qed.

(* ================================================================== *)
(** * The finished file *)
(* ================================================================== *)

(** The two ways [ensure_mp3] ends on a reported file name with a name
    component: kept as reported, or re-printed with the suffix replaced. *)
Lemma ensure_mp3_cases (s : string) :
  Pathlib.name (Pathlib.Path s) <> "" ->
  (Text.lower (Pathlib.suffix (Pathlib.Path s)) = ".mp3"
   /\ ensure_mp3 (PStr s) = Ret (PStr s))
  \/ (Text.lower (Pathlib.suffix (Pathlib.Path s)) <> ".mp3"
      /\ ensure_mp3 (PStr s)
         = Ret (PStr (Pathlib.to_str
                        (mkPath (root (Pathlib.Path s))
                           (removelast (parts (Pathlib.Path s))
                            ++ [(Pathlib.stem (Pathlib.Path s)
                                 ++ ".mp3")%string])%list)))).
Proof.
  intros Hn. unfold ensure_mp3. cbn [Pathlib.of_pyval bind_result].
  destruct (String.eqb (Text.lower (Pathlib.suffix (Pathlib.Path s))) ".mp3")
    eqn:E; cbn [negb].
  - left. apply String.eqb_eq in E. split; [exact E | reflexivity].
  - right. apply String.eqb_neq in E. split; [exact E|].
    rewrite (PathFacts.with_suffix_mp3 _ Hn). reflexivity.
Qed.

(** C4: when the download returns and the first completion notification
    reported the file [s] (a path with a name), the Fetcher succeeds and the
    file name in its message is that of a path whose suffix is [".mp3"] up to
    letter case.  If the reported suffix, lower-cased, is not [".mp3"], the
    path is the reported one with its last component replaced by its stem
    followed by [".mp3"]; otherwise it is the reported text unchanged. *)
Theorem success_file_carries_mp3_suffix
  (ydl : YoutubeDL) (dp : PurePath) (d : pydict) (query : string)
  (events : list pydict) (rc : Z) (s : string) (rest : list pyval) :
  download ydl (ydl_opts dp) ["ytsearch1:" ++ query] = (events, Ret rc) ->
  run_hooks events [] = Ret (PStr s :: rest) ->
  Pathlib.name (Pathlib.Path s) <> "" ->
  exists music_file : string,
    ensure_mp3 (PStr s) = Ret (PStr music_file)
    /\ snd (download_and_store_track ydl dp (PDict d) query)
       = Ret (success_msg (Py.dict_get d "title" (PStr "Unknown Title"))
                (Py.dict_get d "uploader" (PStr "Unknown Artist"))
                (Pathlib.name (Pathlib.Path music_file)))
    /\ Text.lower (Pathlib.suffix (Pathlib.Path music_file)) = ".mp3"
    /\ (Text.lower (Pathlib.suffix (Pathlib.Path s)) <> ".mp3" ->
        Pathlib.Path music_file
        = mkPath (root (Pathlib.Path s))
            (removelast (parts (Pathlib.Path s))
             ++ [(Pathlib.stem (Pathlib.Path s) ++ ".mp3")%string])%list
        /\ Pathlib.suffix (Pathlib.Path music_file) = ".mp3")
    /\ (Text.lower (Pathlib.suffix (Pathlib.Path s)) = ".mp3" ->
        music_file = s).
Proof.
  intros Hd Hev Hn.
  assert (Hrun : forall mf, ensure_mp3 (PStr s) = Ret (PStr mf) ->
            snd (download_and_store_track ydl dp (PDict d) query)
            = Ret (success_msg (Py.dict_get d "title" (PStr "Unknown Title"))
                     (Py.dict_get d "uploader" (PStr "Unknown Artist"))
                     (Pathlib.name (Pathlib.Path mf)))).
  { intros mf Hmf. rewrite download_and_store_track_eq.
    unfold ydl_download. rewrite Hd. cbn [snd]. rewrite Hev.
    cbn [bind_result finalize]. rewrite Hmf. reflexivity. }
  destruct (ensure_mp3_cases s Hn) as [[Hsfx He] | [Hsfx He]].
  - exists s. split; [exact He|]. split; [apply Hrun, He|].
    split; [exact Hsfx|]. split; [intros N; contradiction | reflexivity].
  - pose proof (PathFacts.with_suffix_mp3_wf
                  (PathFacts.Path_wf s) Hn) as Hwf.
    pose proof (PathFacts.Path_to_str Hwf) as Hrt.
    assert (Hs : Pathlib.suffix
                   (mkPath (root (Pathlib.Path s))
                      (removelast (parts (Pathlib.Path s))
                       ++ [(Pathlib.stem (Pathlib.Path s)
                            ++ ".mp3")%string])%list) = ".mp3").
    { unfold Pathlib.suffix. rewrite PathFacts.name_with_suffix.
      apply PathFacts.name_suffix_mp3, PathFacts.stem_not_empty, Hn. }
    eexists. split; [exact He|]. split; [apply Hrun, He|].
    rewrite Hrt. split; [now rewrite Hs|].
    split; [intros _; split; [reflexivity | exact Hs]|].
    intros E; contradiction.
Qed.

(** The fixture download reports [music/Believer/Believer.webm]; the message
    names [Believer.mp3]. *)
Lemma success_file_carries_mp3_suffix_witness :
  exists music_file : string,
    ensure_mp3 (PStr "music/Believer/Believer.webm") = Ret (PStr music_file)
    /\ snd (download_and_store_track Fixture.ydl_ok Fixture.music
              (PDict Fixture.believer) "Believer")
       = Ret (success_msg (PStr "Believer") (PStr "Imagine Dragons")
                (Pathlib.name (Pathlib.Path music_file)))
    /\ Text.lower (Pathlib.suffix (Pathlib.Path music_file)) = ".mp3".
Proof.
  destruct (@success_file_carries_mp3_suffix Fixture.ydl_ok Fixture.music
              Fixture.believer "Believer"
              [Fixture.downloading; Fixture.finished] 0%Z
              "music/Believer/Believer.webm" [])
    as (mf & H1 & H2 & H3 & _).
  - reflexivity.
  - reflexivity.
  - discriminate.
  - exists mf. repeat split; assumption.
Defined.

(** C7: on a successful download for an item [d], the message is
    [success_msg] of a title, an artist and the name of the final file,
    where the title is ["Unknown Title"] when [d] has no [title] key and the
    value of that key otherwise, and the artist is ["Unknown Artist"] when
    [d] has no [uploader] key and the value of that key otherwise; text
    values stand in the message as they are. *)
Theorem success_message_title_and_artist
  (ydl : YoutubeDL) (dp : PurePath) (d : pydict) (query : string)
  (events : list pydict) (rc : Z) (music_file : pyval) (rest : list pyval)
  (final : string) :
  download ydl (ydl_opts dp) ["ytsearch1:" ++ query] = (events, Ret rc) ->
  run_hooks events [] = Ret (music_file :: rest) ->
  ensure_mp3 music_file = Ret (PStr final) ->
  exists title artist : pyval,
    snd (download_and_store_track ydl dp (PDict d) query)
    = Ret (success_msg title artist (Pathlib.name (Pathlib.Path final)))
    /\ (Py.dict_lookup d "title" = None -> title = PStr "Unknown Title")
    /\ (forall t, Py.dict_lookup d "title" = Some t -> title = t)
    /\ (Py.dict_lookup d "uploader" = None -> artist = PStr "Unknown Artist")
    /\ (forall a, Py.dict_lookup d "uploader" = Some a -> artist = a)
    /\ (forall t a, title = PStr t -> artist = PStr a ->
        success_msg title artist (Pathlib.name (Pathlib.Path final))
        = "Downloaded and playing: '" ++ t ++ "' by " ++ a ++ nl
          ++ "File saved as: " ++ Pathlib.name (Pathlib.Path final) ++ nl
          ++ "Added to music library database." ++ nl).
Proof.
  intros Hd Hev Hmf.
  exists (Py.dict_get d "title" (PStr "Unknown Title")),
         (Py.dict_get d "uploader" (PStr "Unknown Artist")).
  split.
  { rewrite download_and_store_track_eq.
    unfold ydl_download. rewrite Hd. cbn [snd]. rewrite Hev.
    cbn [bind_result finalize]. rewrite Hmf. reflexivity. }
  unfold Py.dict_get.
  repeat split.
  - now intros ->.
  - now intros t ->.
  - now intros ->.
  - now intros a ->.
  - intros t a -> ->. reflexivity.
Qed.

(** An item with neither key: both placeholders stand in the message. *)
Lemma success_message_title_and_artist_witness :
  snd (download_and_store_track Fixture.ydl_ok Fixture.music
         (PDict [("id", PStr "7wtfhZwyrcc")]) "Believer")
  = Ret ("Downloaded and playing: 'Unknown Title' by Unknown Artist" ++ nl
         ++ "File saved as: Believer.mp3" ++ nl
         ++ "Added to music library database." ++ nl).
Proof.
  destruct (@success_message_title_and_artist Fixture.ydl_ok Fixture.music
              [("id", PStr "7wtfhZwyrcc")] "Believer"
              [Fixture.downloading; Fixture.finished] 0%Z
              (PStr "music/Believer/Believer.webm") []
              "music/Believer/Believer.mp3")
    as (title & artist & Hm & Ht & _ & Ha & _).
  - reflexivity.
  - reflexivity.
  - reflexivity.
  - rewrite Hm, (Ht eq_refl), (Ha eq_refl). reflexivity.
Defined.

(* ================================================================== *)
(** * The Resolver and the Request Handler *)
(* ================================================================== *)

(** C3: when the search raises an error or carries no result, the Resolver
    returns [None] (whatever the error was) and the Request Handler returns
    the fixed no-results text; the search is the only call made, so the
    Fetcher is not invoked. *)
Theorem not_found_when_search_fails_or_is_empty
  (ydl : YoutubeDL) (dp : PurePath) (query : string) :
  search_without_result
    (extract_info ydl (info_opts dp) ("ytsearch1:" ++ query) false) ->
  get_youtube_info ydl dp query
  = ([CallExtractInfo (info_opts dp) ("ytsearch1:" ++ query) false],
     Ret PNone)
  /\ download_and_play ydl dp query
     = ([CallExtractInfo (info_opts dp) ("ytsearch1:" ++ query) false],
        Ret "No search results found on YouTube for your query.").
Proof.
  intros H.
  assert (Hg : get_youtube_info ydl dp query
               = ([CallExtractInfo (info_opts dp)
                     ("ytsearch1:" ++ query) false], Ret PNone)).
  { rewrite get_youtube_info_eq.
    destruct H as [e | | d Hl | d Hl]; cbn [bind_result];
      try reflexivity.
    - destruct d as [|kv d]; [reflexivity|].
      unfold pick_first, Py.dict_contains. rewrite Hl. reflexivity.
    - destruct d as [|kv d]; [reflexivity|].
      unfold pick_first, Py.dict_contains, Py.dict_getitem.
      rewrite Hl. reflexivity. }
  split; [exact Hg|].
  rewrite download_and_play_eq, Hg. reflexivity.
Qed.

(** A failing search and a search with an empty entry list. *)
Lemma not_found_when_search_fails_or_is_empty_witness :
  download_and_play Fixture.ydl_search_error Fixture.music "Believer"
  = ([CallExtractInfo (info_opts Fixture.music) "ytsearch1:Believer" false],
     Ret "No search results found on YouTube for your query.")
  /\ get_youtube_info
       (mkYoutubeDL (fun _ _ _ => Ret (Some [("entries", PList [])]))
                    (fun _ _ => ([], Ret 0%Z)))
       Fixture.music "zzzz"
     = ([CallExtractInfo (info_opts Fixture.music) "ytsearch1:zzzz" false],
        Ret PNone).
Proof.
  split.
  - apply (@not_found_when_search_fails_or_is_empty
             Fixture.ydl_search_error Fixture.music "Believer").
    apply search_raises.
  - apply (@not_found_when_search_fails_or_is_empty
             (mkYoutubeDL (fun _ _ _ => Ret (Some [("entries", PList [])]))
                          (fun _ _ => ([], Ret 0%Z)))
             Fixture.music "zzzz").
    apply search_zero_entries. reflexivity.
Defined.

(** C10: when the search succeeds and the first entry of its list is falsy,
    the Request Handler returns the no-results text, and the search is the
    only call made: the entry is not passed on to the Fetcher. *)
Theorem falsy_first_entry_is_not_found
  (ydl : YoutubeDL) (dp : PurePath) (query : string)
  (d : pydict) (entry : pyval) (others : list pyval) :
  extract_info ydl (info_opts dp) ("ytsearch1:" ++ query) false
  = Ret (Some d) ->
  Py.dict_lookup d "entries" = Some (PList (entry :: others)) ->
  Py.truthy entry = false ->
  snd (get_youtube_info ydl dp query) = Ret entry
  /\ download_and_play ydl dp query
     = ([CallExtractInfo (info_opts dp) ("ytsearch1:" ++ query) false],
        Ret "No search results found on YouTube for your query.").
Proof.
  intros He Hl Hf.
  assert (Hg : get_youtube_info ydl dp query
               = ([CallExtractInfo (info_opts dp)
                     ("ytsearch1:" ++ query) false], Ret entry)).
  { rewrite get_youtube_info_eq, He. cbn [bind_result].
    destruct d as [|kv d]; [discriminate|].
    unfold pick_first, Py.dict_contains, Py.dict_getitem.
    rewrite Hl. reflexivity. }
  split; [now rewrite Hg|].
  rewrite download_and_play_eq, Hg. cbn [snd fst]. now rewrite Hf.
Qed.

Lemma falsy_first_entry_is_not_found_witness :
  download_and_play Fixture.ydl_empty_entry Fixture.music "Believer"
  = ([CallExtractInfo (info_opts Fixture.music) "ytsearch1:Believer" false],
     Ret "No search results found on YouTube for your query.").
Proof.
  apply (@falsy_first_entry_is_not_found Fixture.ydl_empty_entry
           Fixture.music "Believer"
           [("entries", PList [PDict []])] (PDict []) []);
    reflexivity.
Defined.




(* ================================================================== *)
(** * Start-up *)
(* ================================================================== *)

(** C8, as the code has it: the download root is the path in
    [DOWNLOAD_PATH], or the working directory when the variable is unset.
    Start-up succeeds and leaves the file system as it is when that
    directory exists.  When nothing is there it asks the operating system,
    once, to make that one directory: if the system makes it, start-up
    succeeds and the directory is there; if the system refuses (as it does
    with [FileNotFoundError] when the parent is missing), start-up fails
    with the system's error: no parent is made and nothing is tried
    again. *)
Theorem startup_download_directory
  (environ : list (string * string)) (fs : filesystem) :
  let dp := download_path environ in
  (forall v, OS.environ_lookup environ "DOWNLOAD_PATH" = Some v ->
             dp = Pathlib.Path v)
  /\ (OS.environ_lookup environ "DOWNLOAD_PATH" = None ->
      dp = Pathlib.Path "./" /\ Pathlib.to_str dp = ".")
  /\ (fs_kind fs (Pathlib.to_str dp) = Some Directory ->
      startup environ fs = Ret (dp, fs))
  /\ (forall after,
        fs_kind fs (Pathlib.to_str dp) = None ->
        fs_mkdir fs (Pathlib.to_str dp) = Created after ->
        exists fs', startup environ fs = Ret (dp, fs')
                    /\ OS.is_dir fs' dp = true)
  /\ (forall e,
        fs_kind fs (Pathlib.to_str dp) = None ->
        fs_mkdir fs (Pathlib.to_str dp) = Refused e ->
        startup environ fs = Raise e).
Proof.
  cbv zeta. unfold startup, download_path, OS.environ_get.
  split; [intros v ->; reflexivity|].
  split; [intros ->; split; reflexivity|].
  set (dp := Pathlib.Path _).
  unfold OS.Path_mkdir, OS.mkdir, OS.is_dir.
  split; [intros ->; reflexivity|].
  split.
  - intros after -> ->. cbn [bind_result]. eexists. split; [reflexivity|].
    unfold OS.created. cbn [fs_kind]. now rewrite String.eqb_refl.
  - intros e -> ->.
    destruct (String.eqb (exc_type e) "FileNotFoundError"); [reflexivity|].
    destruct (OS.is_OSError (exc_type e)); reflexivity.
Qed.

(** With no variable set the root is the working directory, which exists;
    with [DOWNLOAD_PATH=music] the directory is made in it. *)
Lemma startup_download_directory_witness :
  startup [] Fixture.fs_cwd_only
  = Ret (Pathlib.Path "./", Fixture.fs_cwd_only)
  /\ exists fs',
       startup [("DOWNLOAD_PATH", "music")] Fixture.fs_cwd_only
       = Ret (Pathlib.Path "music", fs')
       /\ OS.is_dir fs' (Pathlib.Path "music") = true.
Proof.
  split.
  - apply (proj1 (proj2 (proj2
             (startup_download_directory [] Fixture.fs_cwd_only)))).
    reflexivity.
  - eapply (proj1 (proj2 (proj2 (proj2
              (startup_download_directory [("DOWNLOAD_PATH", "music")]
                 Fixture.fs_cwd_only))))); reflexivity.
Defined.

(** C8 fails as stated: with [DOWNLOAD_PATH=music/jukebox] and only the
    working directory present, the directory is missing, yet start-up does
    not create it: it ends with [FileNotFoundError]. *)
Lemma startup_fails_when_parent_is_missing :
  fs_kind Fixture.fs_cwd_only "music/jukebox" = None
  /\ startup [("DOWNLOAD_PATH", "music/jukebox")] Fixture.fs_cwd_only
     = Raise (mkExc "FileNotFoundError"
                "[Errno 2] No such file or directory: 'music/jukebox'" None).
Proof. split; reflexivity. Qed.

(* ================================================================== *)
(** * More on the finished file *)
(* ================================================================== *)

Section EnsureMp3.

Import Text TextFacts Pathlib PathFacts.

(** The stem of a name made of a non-empty stem and [".mp3"]. *)
Lemma stem_mp3 (r : string) (ps : list string) (x : string) :
  x <> "" ->
  stem (mkPath r (ps ++ [(x ++ ".mp3")%string])%list) = x.
Proof.
  intros Hx. unfold stem. rewrite name_with_suffix.
  rewrite rfind_append. cbn [rfind Ascii.eqb Bool.eqb].
  rewrite length_append. cbn [String.length].
  assert (0 < String.length x)%nat by (destruct x; [congruence | simpl; lia]).
  replace (0 <? String.length x + 0)%nat with true
    by (symmetry; apply Nat.ltb_lt; lia).
  replace (String.length x + 0 <? String.length x + 4 - 1)%nat with true
    by (symmetry; apply Nat.ltb_lt; lia).
  cbn [andb]. rewrite Nat.add_0_r. apply take_append_length.
Qed.

Lemma PStr_inj (a b : string) : PStr a = PStr b -> a = b.
Proof. congruence. Qed.

(** [ensure_mp3] succeeds only on text that names a file. *)
Lemma ensure_mp3_ok_inv (music_file result : pyval) :
  ensure_mp3 music_file = Ret result ->
  exists s, music_file = PStr s /\ name (Path s) <> "".
Proof.
  destruct music_file as [| b | z | s | l | d]; try discriminate.
  intros H. exists s. split; [reflexivity|]. intros Hn.
  unfold ensure_mp3 in H. cbn [of_pyval bind_result] in H.
  unfold suffix, with_suffix in H. rewrite Hn in H.
  cbn in H. destruct (ascii_dec "."%char "."%char) as [_|N];
    [discriminate | now elim N].
Qed.

Lemma ensure_mp3_result (s : string) (result : pyval) :
  ensure_mp3 (PStr s) = Ret result ->
  (Text.lower (suffix (Path s)) = ".mp3" /\ result = PStr s)
  \/ (Text.lower (suffix (Path s)) <> ".mp3"
      /\ result = PStr (to_str
                          (mkPath (root (Path s))
                             (removelast (parts (Path s))
                              ++ [(stem (Path s) ++ ".mp3")%string])%list))).
Proof.
  intros H.
  destruct (@ensure_mp3_ok_inv _ _ H) as (s' & [= <-] & Hn).
  destruct (ensure_mp3_cases s Hn) as [[Hs He] | [Hs He]];
    rewrite He in H; injection H as <-; auto.
Qed.

End EnsureMp3.

(** X1: ensuring the extension twice is the same as ensuring it once: the
    result of [ensure_mp3] is left unchanged by [ensure_mp3]. *)
Theorem ensure_mp3_idempotent (music_file result : pyval) :
  ensure_mp3 music_file = Ret result ->
  ensure_mp3 result = Ret result.
Proof.
  intros H.
  destruct (@ensure_mp3_ok_inv _ _ H) as (s & -> & Hn).
  destruct (@ensure_mp3_result _ _ H) as [[Hs ->] | [Hs ->]].
  - destruct (ensure_mp3_cases s Hn) as [[_ He] | [N _]];
      [exact He | contradiction].
  - pose proof (PathFacts.with_suffix_mp3_wf (PathFacts.Path_wf s) Hn) as Hwf.
    unfold ensure_mp3. cbn [Pathlib.of_pyval bind_result].
    rewrite (PathFacts.Path_to_str Hwf).
    unfold Pathlib.suffix. rewrite PathFacts.name_with_suffix.
    rewrite PathFacts.name_suffix_mp3
      by apply PathFacts.stem_not_empty, Hn.
    reflexivity.
Qed.

Lemma ensure_mp3_idempotent_witness :
  ensure_mp3 (PStr "music/Believer/Believer.mp3")
  = Ret (PStr "music/Believer/Believer.mp3").
Proof.
  apply (@ensure_mp3_idempotent (PStr "music/Believer/Believer.webm")
           (PStr "music/Believer/Believer.mp3")).
  reflexivity.
Defined.

(** X2: ensuring the extension keeps the file where it is and keeps its
    stem: the final path has the parent and the stem of the reported one. *)
Theorem ensure_mp3_keeps_directory_and_stem (s final : string) :
  ensure_mp3 (PStr s) = Ret (PStr final) ->
  Pathlib.parent (Pathlib.Path final) = Pathlib.parent (Pathlib.Path s)
  /\ Pathlib.stem (Pathlib.Path final) = Pathlib.stem (Pathlib.Path s).
Proof.
  intros H.
  destruct (@ensure_mp3_ok_inv _ _ H) as (s' & [= <-] & Hn).
  destruct (@ensure_mp3_result _ _ H) as [[_ E] | [_ E]];
    apply PStr_inj in E; subst final; [split; reflexivity|].
  pose proof (PathFacts.with_suffix_mp3_wf (PathFacts.Path_wf s) Hn) as Hwf.
  rewrite (PathFacts.Path_to_str Hwf). split.
  - unfold Pathlib.parent. cbn [root parts]. now rewrite removelast_last.
  - apply stem_mp3, PathFacts.stem_not_empty, Hn.
Qed.

Lemma ensure_mp3_keeps_directory_and_stem_witness :
  Pathlib.parent (Pathlib.Path "/srv/music/Thunder/Thunder.f251.mp3")
  = Pathlib.parent (Pathlib.Path "/srv/music//Thunder/./Thunder.f251.webm")
  /\ Pathlib.stem (Pathlib.Path "/srv/music/Thunder/Thunder.f251.mp3")
     = Pathlib.stem (Pathlib.Path "/srv/music//Thunder/./Thunder.f251.webm").
Proof.
  apply (@ensure_mp3_keeps_directory_and_stem
           "/srv/music//Thunder/./Thunder.f251.webm"
           "/srv/music/Thunder/Thunder.f251.mp3").
  reflexivity.
Defined.

(* ================================================================== *)
(** * The progress hook *)
(* ================================================================== *)

Lemma run_hooks_app (a b : list pydict) (files : list pyval) :
  run_hooks (a ++ b)%list files
  = bind_result (run_hooks a files) (fun files' => run_hooks b files').
Proof.
  revert files; induction a as [|d a IH]; intros files; [reflexivity|].
  cbn [app run_hooks].
  destruct (progress_hook files d) as [files' | e | e]; cbn [bind_result];
    [apply IH | reflexivity | reflexivity].
Qed.

Lemma not_finished_readable (d : pydict) : not_finished d -> readable_event d.
Proof.
  intros (status & Hs & Hne). exists status. split; [exact Hs|].
  rewrite Hne. discriminate.
Qed.

Lemma reported_files_not_finished (events : list pydict) :
  Forall not_finished events -> reported_files events = [].
Proof.
  induction 1 as [|d events (status & Hs & Hne) _ IH]; [reflexivity|].
  unfold reported_files in *. cbn [flat_map]. unfold is_finished at 1.
  rewrite Hs, Hne. exact IH.
Qed.

(** The hook over readable status dictionaries, by induction on them. *)
Lemma run_hooks_readable
  (events : list pydict) (downloaded_files : list pyval) :
  Forall readable_event events ->
  run_hooks events downloaded_files
  = Ret (downloaded_files ++ reported_files events)%list.
Proof.
  intros H; revert downloaded_files.
  induction H as [|d events (status & Hs & Hf) _ IH]; intros files.
  - cbn. now rewrite app_nil_r.
  - change (run_hooks (d :: events) files)
      with (bind_result (progress_hook files d)
              (fun files' => run_hooks events files')).
    change (reported_files (d :: events))
      with ((if is_finished d
             then match Py.dict_lookup d "filename" with
                  | Some f => [f]
                  | None => []
                  end
             else []) ++ reported_files events)%list.
    unfold progress_hook, Py.dict_getitem, is_finished.
    rewrite Hs. cbn [bind_result].
    destruct (Py.eq_str status "finished").
    + destruct (Hf eq_refl) as [f Hl]. rewrite Hl. cbn [bind_result].
      rewrite IH. now rewrite <- app_assoc.
    + cbn [bind_result]. rewrite IH. reflexivity.
Qed.

(** X3: over status dictionaries it can read, the hook appends to
    [downloaded_files] the file names of the completion notifications, in
    the order received, and nothing for any other status. *)
Theorem run_hooks_collects_finished_files
  (events : list pydict) (downloaded_files : list pyval) :
  Forall readable_event events ->
  run_hooks events downloaded_files
  = Ret (downloaded_files ++ reported_files events)%list.
Proof. apply run_hooks_readable. Qed.

Lemma run_hooks_collects_finished_files_witness :
  run_hooks [Fixture.downloading; Fixture.finished; Fixture.downloading;
             [("status", PStr "finished"); ("filename", PStr "b.m4a")]]
            [PStr "a.mp3"]
  = Ret [PStr "a.mp3"; PStr "music/Believer/Believer.webm"; PStr "b.m4a"].
Proof.
  apply (@run_hooks_collects_finished_files
           [Fixture.downloading; Fixture.finished; Fixture.downloading;
            [("status", PStr "finished"); ("filename", PStr "b.m4a")]]
           [PStr "a.mp3"]).
  repeat constructor;
    (eexists; split; [reflexivity | intros _; eexists; reflexivity]).
Defined.

(** X4: a status dictionary without a [status] key makes the hook raise
    [KeyError], and the Fetcher then raises its download failure with the
    text ['status'] and that [KeyError] as context, whether or not the
    download itself went on to succeed. *)
Theorem status_missing_fails_the_fetch
  (ydl : YoutubeDL) (dp : PurePath) (video_info : pyval) (query : string)
  (before after : list pydict) (d : pydict) (outcome : result Z) :
  download ydl (ydl_opts dp) ["ytsearch1:" ++ query]
  = ((before ++ d :: after)%list, outcome) ->
  Forall readable_event before ->
  Py.dict_lookup d "status" = None ->
  download_and_store_track ydl dp video_info query
  = ([download_call dp query],
     Raise (mkExc "Exception" "Failed to download track: 'status'"
              (Some (mkExc "KeyError" "'status'" None)))).
Proof.
  intros Hd Hb Hs. rewrite download_and_store_track_eq.
  unfold ydl_download. rewrite Hd. cbn [snd].
  rewrite run_hooks_app, (run_hooks_readable [] Hb).
  cbn [bind_result run_hooks]. unfold progress_hook, Py.dict_getitem.
  rewrite Hs. reflexivity.
Qed.

Lemma status_missing_fails_the_fetch_witness :
  download_and_store_track
    (mkYoutubeDL (fun _ _ _ => Ret (Some Fixture.search_hit))
                 (fun _ _ => ([Fixture.finished;
                               [("filename", PStr "x.webm")]], Ret 0%Z)))
    Fixture.music (PDict Fixture.believer) "Believer"
  = ([download_call Fixture.music "Believer"],
     Raise (mkExc "Exception" "Failed to download track: 'status'"
              (Some (mkExc "KeyError" "'status'" None)))).
Proof.
  apply (@status_missing_fails_the_fetch
           (mkYoutubeDL (fun _ _ _ => Ret (Some Fixture.search_hit))
                        (fun _ _ => ([Fixture.finished;
                                      [("filename", PStr "x.webm")]],
                                     Ret 0%Z)))
           Fixture.music (PDict Fixture.believer) "Believer"
           [Fixture.finished] [] [("filename", PStr "x.webm")] (Ret 0%Z)).
  - reflexivity.
  - repeat constructor.
    eexists; split; [reflexivity | intros _; eexists; reflexivity].
  - reflexivity.
Defined.

(** X5: the message is about the first completion notification.  When the
    download returns, the dictionaries before the first notification are
    not notifications, that one reports the text [s] (a path with a name)
    and the later ones are readable, the Fetcher succeeds with the name of
    [ensure_mp3 s]; later notifications do not change the message. *)
Theorem first_completion_notice_names_the_file
  (ydl : YoutubeDL) (dp : PurePath) (item : pydict) (query : string)
  (before after : list pydict) (d : pydict) (rc : Z) (s : string) :
  download ydl (ydl_opts dp) ["ytsearch1:" ++ query]
  = ((before ++ d :: after)%list, Ret rc) ->
  Forall not_finished before ->
  is_finished d = true ->
  Py.dict_lookup d "filename" = Some (PStr s) ->
  Forall readable_event after ->
  Pathlib.name (Pathlib.Path s) <> "" ->
  exists final : string,
    ensure_mp3 (PStr s) = Ret (PStr final)
    /\ download_and_store_track ydl dp (PDict item) query
       = ([download_call dp query],
          Ret (success_msg (Py.dict_get item "title" (PStr "Unknown Title"))
                 (Py.dict_get item "uploader" (PStr "Unknown Artist"))
                 (Pathlib.name (Pathlib.Path final)))).
Proof.
  intros Hd Hb Hfin Hfile Ha Hn.
  assert (Hread : Forall readable_event (before ++ d :: after)%list).
  { apply Forall_app; split.
    - eapply Forall_impl; [|exact Hb]. apply not_finished_readable.
    - constructor; [|exact Ha].
      pose proof Hfin as Hst. unfold is_finished in Hst.
      destruct (Py.dict_lookup d "status") as [status|] eqn:Hs;
        [|discriminate].
      exists status. split; [exact Hs|]. intros _. eexists. exact Hfile. }
  assert (Hfiles : reported_files (before ++ d :: after)%list
                   = PStr s :: reported_files after).
  { unfold reported_files. rewrite flat_map_app. cbn [flat_map].
    fold (reported_files before). fold (reported_files after).
    rewrite (reported_files_not_finished Hb), Hfin, Hfile. reflexivity. }
  assert (He : exists final, ensure_mp3 (PStr s) = Ret (PStr final))
    by (destruct (ensure_mp3_cases s Hn) as [[_ E] | [_ E]];
        eexists; exact E).
  destruct He as [final He]. exists final. split; [exact He|].
  rewrite download_and_store_track_eq.
  unfold ydl_download. rewrite Hd. cbn [snd].
  rewrite (run_hooks_readable [] Hread), Hfiles.
  cbn [app bind_result finalize]. rewrite He. reflexivity.
Qed.

Lemma first_completion_notice_names_the_file_witness :
  exists final : string,
    ensure_mp3 (PStr "music/Believer/Believer.webm") = Ret (PStr final)
    /\ download_and_store_track
         (mkYoutubeDL (fun _ _ _ => Ret (Some Fixture.search_hit))
            (fun _ _ => ([Fixture.downloading; Fixture.finished;
                          [("status", PStr "finished");
                           ("filename", PStr "cover.webp")]], Ret 0%Z)))
         Fixture.music (PDict Fixture.believer) "Believer"
       = ([download_call Fixture.music "Believer"],
          Ret (success_msg (PStr "Believer") (PStr "Imagine Dragons")
                 (Pathlib.name (Pathlib.Path final)))).
Proof.
  apply (@first_completion_notice_names_the_file
           (mkYoutubeDL (fun _ _ _ => Ret (Some Fixture.search_hit))
              (fun _ _ => ([Fixture.downloading; Fixture.finished;
                            [("status", PStr "finished");
                             ("filename", PStr "cover.webp")]], Ret 0%Z)))
           Fixture.music Fixture.believer "Believer"
           [Fixture.downloading]
           [[("status", PStr "finished"); ("filename", PStr "cover.webp")]]
           Fixture.finished 0%Z "music/Believer/Believer.webm").
  - reflexivity.
  - repeat constructor. eexists; split; reflexivity.
  - reflexivity.
  - reflexivity.
  - repeat constructor.
    eexists; split; [reflexivity | intros _; eexists; reflexivity].
  - discriminate.
Defined.

(* ================================================================== *)
(** * When the Fetcher succeeds and how it fails *)
(* ================================================================== *)

(** X6: for a dictionary item and a download that returned with a first
    reported file, the Fetcher returns a message exactly when that file is
    text whose path has a name; in every other case it raises. *)
Theorem fetch_succeeds_iff_file_is_named
  (ydl : YoutubeDL) (dp : PurePath) (item : pydict) (query : string)
  (events : list pydict) (rc : Z) (music_file : pyval) (rest : list pyval) :
  download ydl (ydl_opts dp) ["ytsearch1:" ++ query] = (events, Ret rc) ->
  run_hooks events [] = Ret (music_file :: rest) ->
  (exists msg, snd (download_and_store_track ydl dp (PDict item) query)
               = Ret msg)
  <-> (exists s, music_file = PStr s
                 /\ Pathlib.name (Pathlib.Path s) <> "").
Proof.
  intros Hd Hev. rewrite download_and_store_track_eq.
  unfold ydl_download. rewrite Hd. cbn [snd]. rewrite Hev.
  cbn [bind_result finalize]. split.
  - intros [msg Hm].
    destruct (ensure_mp3 music_file) as [final | e | e] eqn:He;
      [exact (ensure_mp3_ok_inv _ He) | discriminate | discriminate].
  - intros (s & -> & Hn).
    destruct (ensure_mp3_cases s Hn) as [[_ ->] | [_ ->]];
      eexists; reflexivity.
Qed.

Lemma fetch_succeeds_iff_file_is_named_witness :
  (exists msg, snd (download_and_store_track Fixture.ydl_ok Fixture.music
                      (PDict Fixture.believer) "Believer") = Ret msg)
  <-> (exists s, PStr "music/Believer/Believer.webm" = PStr s
                 /\ Pathlib.name (Pathlib.Path s) <> "").
Proof.
  apply (@fetch_succeeds_iff_file_is_named Fixture.ydl_ok Fixture.music
           Fixture.believer "Believer"
           [Fixture.downloading; Fixture.finished] 0%Z
           (PStr "music/Believer/Believer.webm") []); reflexivity.
Defined.

(** X7: when the first reported file is text whose path has no name (the
    empty text, ["."], ["/"]), the Fetcher raises its download failure with
    the text of [with_suffix]'s [ValueError], although the download
    returned. *)
Theorem nameless_file_fails_the_fetch
  (ydl : YoutubeDL) (dp : PurePath) (video_info : pyval) (query : string)
  (events : list pydict) (rc : Z) (s : string) (rest : list pyval) :
  download ydl (ydl_opts dp) ["ytsearch1:" ++ query] = (events, Ret rc) ->
  run_hooks events [] = Ret (PStr s :: rest) ->
  Pathlib.name (Pathlib.Path s) = "" ->
  download_and_store_track ydl dp video_info query
  = ([download_call dp query],
     Raise (mkExc "Exception"
              ("Failed to download track: "
               ++ Pathlib.repr (Pathlib.Path s) ++ " has an empty name")
              (Some (mkExc "ValueError"
                       (Pathlib.repr (Pathlib.Path s)
                        ++ " has an empty name") None)))).
Proof.
  intros Hd Hev Hn. rewrite download_and_store_track_eq.
  unfold ydl_download. rewrite Hd. cbn [snd]. rewrite Hev.
  cbn [bind_result finalize].
  unfold ensure_mp3. cbn [Pathlib.of_pyval bind_result].
  unfold Pathlib.suffix, Pathlib.with_suffix. rewrite Hn.
  cbn. destruct (ascii_dec "."%char "."%char) as [_|N];
    [reflexivity | now elim N].
Qed.

Lemma nameless_file_fails_the_fetch_witness :
  download_and_store_track
    (mkYoutubeDL (fun _ _ _ => Ret (Some Fixture.search_hit))
       (fun _ _ => ([[("status", PStr "finished"); ("filename", PStr "/")]],
                    Ret 0%Z)))
    Fixture.music (PDict Fixture.believer) "Believer"
  = ([download_call Fixture.music "Believer"],
     Raise (mkExc "Exception"
              "Failed to download track: PosixPath('/') has an empty name"
              (Some (mkExc "ValueError" "PosixPath('/') has an empty name"
                       None)))).
Proof.
  apply (@nameless_file_fails_the_fetch
           (mkYoutubeDL (fun _ _ _ => Ret (Some Fixture.search_hit))
              (fun _ _ => ([[("status", PStr "finished");
                             ("filename", PStr "/")]], Ret 0%Z)))
           Fixture.music (PDict Fixture.believer) "Believer"
           [[("status", PStr "finished"); ("filename", PStr "/")]] 0%Z
           "/" []); reflexivity.
Defined.

(** X8: whatever goes wrong inside the Fetcher, the error it raises is of
    the plain class [Exception] and its text starts with
    ["Failed to download track: "]. *)
Theorem fetch_raises_only_download_failures
  (ydl : YoutubeDL) (dp : PurePath) (video_info : pyval) (query : string)
  (e : exc) :
  snd (download_and_store_track ydl dp video_info query) = Raise e ->
  exc_type e = "Exception"
  /\ String.prefix "Failed to download track: " (exc_str e) = true.
Proof.
  rewrite download_and_store_track_eq. cbn [snd].
  destruct (bind_result _ _) as [msg | e0 | e0]; cbn [download_failed];
    try discriminate.
  intros [= <-]. split; [reflexivity|].
  apply (TextFacts.prefix_append "Failed to download track: " (exc_str e0)).
Qed.

Lemma fetch_raises_only_download_failures_witness :
  exc_type (mkExc "Exception"
              "Failed to download track: ERROR: unable to download video data"
              (Some (mkExc "DownloadError"
                       "ERROR: unable to download video data" None)))
  = "Exception"
  /\ String.prefix "Failed to download track: "
       (exc_str (mkExc "Exception"
          "Failed to download track: ERROR: unable to download video data"
          (Some (mkExc "DownloadError"
                   "ERROR: unable to download video data" None))))
     = true.
Proof.
  apply (@fetch_raises_only_download_failures Fixture.ydl_download_error
           Fixture.music (PDict Fixture.believer) "Believer").
  reflexivity.
Defined.

(** X9: an item that is not a dictionary does not stop the download: the
    request is sent, and only afterwards, on reading the title, the Fetcher
    fails with the text of the [AttributeError]. *)
Theorem non_dict_item_fails_after_the_download
  (ydl : YoutubeDL) (dp : PurePath) (video_info : pyval) (query : string)
  (events : list pydict) (rc : Z) (s : string) (rest : list pyval) :
  Py.type_name video_info <> "dict" ->
  download ydl (ydl_opts dp) ["ytsearch1:" ++ query] = (events, Ret rc) ->
  run_hooks events [] = Ret (PStr s :: rest) ->
  Pathlib.name (Pathlib.Path s) <> "" ->
  download_and_store_track ydl dp video_info query
  = ([download_call dp query],
     Raise (mkExc "Exception"
              ("Failed to download track: '" ++ Py.type_name video_info
               ++ "' object has no attribute 'get'")
              (Some (mkExc "AttributeError"
                       ("'" ++ Py.type_name video_info
                        ++ "' object has no attribute 'get'") None)))).
Proof.
  intros Ht Hd Hev Hn. rewrite download_and_store_track_eq.
  unfold ydl_download. rewrite Hd. cbn [snd]. rewrite Hev.
  cbn [bind_result finalize].
  destruct (ensure_mp3_cases s Hn) as [[_ ->] | [_ ->]];
    destruct video_info; try (now elim Ht); reflexivity.
Qed.

Lemma non_dict_item_fails_after_the_download_witness :
  download_and_store_track Fixture.ydl_ok Fixture.music (PStr "Believer")
    "Believer"
  = ([download_call Fixture.music "Believer"],
     Raise (mkExc "Exception"
              "Failed to download track: 'str' object has no attribute 'get'"
              (Some (mkExc "AttributeError"
                       "'str' object has no attribute 'get'" None)))).
Proof.
  apply (@non_dict_item_fails_after_the_download Fixture.ydl_ok
           Fixture.music (PStr "Believer") "Believer"
           [Fixture.downloading; Fixture.finished] 0%Z
           "music/Believer/Believer.webm" []);
    try reflexivity; discriminate.
Defined.

(* ================================================================== *)
(** * More on the Resolver *)
(* ================================================================== *)

Lemma pick_first_no_base (info : option pydict) (e : exc) :
  pick_first info <> RaiseBase e.
Proof.
  destruct info as [[|kv d]|]; cbn; try discriminate.
  destruct (Py.dict_contains (kv :: d) "entries"); cbn; try discriminate.
  unfold Py.dict_getitem.
  destruct (Py.dict_lookup (kv :: d) "entries") as [entries|]; cbn;
    try discriminate.
  destruct entries as [| b | z | s | l | d']; cbn; try discriminate.
  - destruct (Z.eqb _ 0); cbn; try discriminate. destruct s; discriminate.
  - destruct (Z.eqb _ 0); cbn; try discriminate. destruct l; discriminate.
  - destruct (Z.eqb _ 0); discriminate.
Qed.

Lemma pick_first_ret (info : option pydict) (v : pyval) :
  pick_first info = Ret v ->
  v = PNone
  \/ exists (d : pydict) (entries : pyval),
       info = Some d
       /\ Py.dict_lookup d "entries" = Some entries
       /\ Py.getitem0 entries = Ret v.
Proof.
  destruct info as [[|kv d]|]; cbn; try (intros [= <-]; now left).
  unfold Py.dict_contains, Py.dict_getitem.
  destruct (Py.dict_lookup (kv :: d) "entries") as [entries|] eqn:Hl;
    cbn [negb bind_result]; [|intros [= <-]; now left].
  destruct (Py.len entries) as [n | e | e]; cbn [bind_result];
    try discriminate.
  destruct (Z.eqb n 0); [intros [= <-]; now left|].
  intros Hg. right. exists (kv :: d), entries. auto.
Qed.

(** X10: the Resolver sends exactly one request, the search without
    download, and raises no error that is an instance of [Exception]: it
    ends with an error outside [Exception] exactly when the search does,
    with that error, and returns otherwise.  What it returns is either
    [None] or the first element of the [entries] the collaborator answered
    with. *)
Theorem resolver_returns_none_or_first_entry
  (ydl : YoutubeDL) (dp : PurePath) (query : string) :
  fst (get_youtube_info ydl dp query) = [search_call dp query]
  /\ (forall e : exc, snd (get_youtube_info ydl dp query) <> Raise e)
  /\ (forall e : exc,
        snd (get_youtube_info ydl dp query) = RaiseBase e
        <-> extract_info ydl (info_opts dp) ("ytsearch1:" ++ query) false
            = RaiseBase e)
  /\ ((forall e : exc,
         extract_info ydl (info_opts dp) ("ytsearch1:" ++ query) false
         <> RaiseBase e) ->
      exists v : pyval, snd (get_youtube_info ydl dp query) = Ret v)
  /\ (forall v : pyval,
        snd (get_youtube_info ydl dp query) = Ret v ->
        v = PNone
        \/ exists (d : pydict) (entries : pyval),
             extract_info ydl (info_opts dp) ("ytsearch1:" ++ query) false
             = Ret (Some d)
             /\ Py.dict_lookup d "entries" = Some entries
             /\ Py.getitem0 entries = Ret v).
Proof.
  rewrite get_youtube_info_eq. cbn [fst snd].
  split; [reflexivity|].
  destruct (extract_info ydl (info_opts dp) ("ytsearch1:" ++ query) false)
    as [info | e0 | e0]; cbn [bind_result none_on_error].
  - destruct (pick_first info) as [v | e0 | e0] eqn:Hp;
      cbn [none_on_error].
    + repeat split; try discriminate.
      * intros _. eexists; reflexivity.
      * intros v' [= <-].
        destruct (pick_first_ret _ Hp) as [-> | (d & entries & -> & H)];
          [now left | right; exists d, entries; auto].
    + repeat split; try discriminate.
      * intros _. eexists; reflexivity.
      * intros v' [= <-]. now left.
    + exfalso. exact (pick_first_no_base _ Hp).
  - repeat split; try discriminate.
    + intros _. eexists; reflexivity.
    + intros v' [= <-]. now left.
  - repeat split; try discriminate; try (intros [= ->]; reflexivity).
    intros H. now elim (H e0).
Qed.

Lemma resolver_returns_none_or_first_entry_witness :
  exists v : pyval,
    snd (get_youtube_info Fixture.ydl_ok Fixture.music "Believer") = Ret v.
Proof.
  apply (proj1 (proj2 (proj2 (proj2
           (resolver_returns_none_or_first_entry Fixture.ydl_ok
              Fixture.music "Believer"))))).
  intros e; discriminate.
Defined.

(** X11: when the search answers with a dictionary whose [entries] is a
    non-empty list, the Resolver returns the first entry of the list,
    whatever it is and whatever follows it. *)
Theorem resolver_returns_first_of_list
  (ydl : YoutubeDL) (dp : PurePath) (query : string)
  (d : pydict) (entry : pyval) (others : list pyval) :
  extract_info ydl (info_opts dp) ("ytsearch1:" ++ query) false
  = Ret (Some d) ->
  Py.dict_lookup d "entries" = Some (PList (entry :: others)) ->
  get_youtube_info ydl dp query = ([search_call dp query], Ret entry).
Proof.
  intros He Hl. rewrite get_youtube_info_eq, He. cbn [bind_result].
  destruct d as [|kv d]; [discriminate|].
  unfold pick_first, Py.dict_contains, Py.dict_getitem.
  rewrite Hl. reflexivity.
Qed.

Lemma resolver_returns_first_of_list_witness :
  get_youtube_info
    (mkYoutubeDL
       (fun _ _ _ => Ret (Some [("id", PStr "Believer");
                                ("entries", PList [PDict Fixture.believer;
                                                   PDict Fixture.thunder])]))
       (fun _ _ => ([], Ret 0%Z)))
    Fixture.music "Believer"
  = ([search_call Fixture.music "Believer"], Ret (PDict Fixture.believer)).
Proof.
  apply (@resolver_returns_first_of_list
           (mkYoutubeDL
              (fun _ _ _ => Ret (Some [("id", PStr "Believer");
                                       ("entries",
                                        PList [PDict Fixture.believer;
                                               PDict Fixture.thunder])]))
              (fun _ _ => ([], Ret 0%Z)))
           Fixture.music "Believer"
           [("id", PStr "Believer");
            ("entries", PList [PDict Fixture.believer;
                               PDict Fixture.thunder])]
           (PDict Fixture.believer) [PDict Fixture.thunder]);
    reflexivity.
Defined.

(** X12: when the [entries] of the answer is neither a list nor text
    ([None], a number, a dictionary), the error met on measuring or
    indexing it is swallowed and the Resolver returns [None]. *)
Theorem resolver_swallows_malformed_entries
  (ydl : YoutubeDL) (dp : PurePath) (query : string)
  (d : pydict) (entries : pyval) :
  extract_info ydl (info_opts dp) ("ytsearch1:" ++ query) false
  = Ret (Some d) ->
  Py.dict_lookup d "entries" = Some entries ->
  Py.type_name entries <> "list" ->
  Py.type_name entries <> "str" ->
  get_youtube_info ydl dp query = ([search_call dp query], Ret PNone).
Proof.
  intros He Hl Hnl Hns. rewrite get_youtube_info_eq, He. cbn [bind_result].
  destruct d as [|kv d]; [discriminate|].
  unfold pick_first, Py.dict_contains, Py.dict_getitem.
  rewrite Hl. cbn [negb bind_result].
  destruct entries as [| b | z | s | l | d']; try reflexivity;
    try (now elim Hnl); try (now elim Hns).
  cbn [Py.len bind_result].
  destruct (Z.eqb _ 0); reflexivity.
Qed.

Lemma resolver_swallows_malformed_entries_witness :
  get_youtube_info
    (mkYoutubeDL
       (fun _ _ _ => Ret (Some [("entries", PDict Fixture.believer)]))
       (fun _ _ => ([], Ret 0%Z)))
    Fixture.music "Believer"
  = ([search_call Fixture.music "Believer"], Ret PNone).
Proof.
  apply (@resolver_swallows_malformed_entries
           (mkYoutubeDL
              (fun _ _ _ => Ret (Some [("entries", PDict Fixture.believer)]))
              (fun _ _ => ([], Ret 0%Z)))
           Fixture.music "Believer"
           [("entries", PDict Fixture.believer)] (PDict Fixture.believer));
    try reflexivity; discriminate.
Defined.

(* ================================================================== *)
(** * More on the Request Handler *)
(* ================================================================== *)

Lemma get_youtube_info_log (ydl : YoutubeDL) (dp : PurePath) (q : string) :
  fst (get_youtube_info ydl dp q) = [search_call dp q].
Proof. rewrite get_youtube_info_eq. reflexivity. Qed.

Lemma download_and_store_track_log
  (ydl : YoutubeDL) (dp : PurePath) (v : pyval) (q : string) :
  fst (download_and_store_track ydl dp v q) = [download_call dp q].
Proof. rewrite download_and_store_track_eq. reflexivity. Qed.

(** X13: when the Resolver finds a truthy item and the Fetcher returns a
    message for it, the Request Handler returns that message unchanged,
    having sent the search request and then the download request. *)
Theorem handler_returns_fetcher_message
  (ydl : YoutubeDL) (dp : PurePath) (query : string)
  (video_info : pyval) (msg : string) :
  snd (get_youtube_info ydl dp query) = Ret video_info ->
  Py.truthy video_info = true ->
  snd (download_and_store_track ydl dp video_info query) = Ret msg ->
  download_and_play ydl dp query
  = ([search_call dp query; download_call dp query], Ret msg).
Proof.
  intros Hv Ht Hm. rewrite download_and_play_eq. cbv zeta.
  rewrite Hv, Ht, Hm, get_youtube_info_log, download_and_store_track_log.
  reflexivity.
Qed.

Lemma handler_returns_fetcher_message_witness :
  download_and_play Fixture.ydl_ok Fixture.music "Imagine Dragons Believer"
  = ([search_call Fixture.music "Imagine Dragons Believer";
      download_call Fixture.music "Imagine Dragons Believer"],
     Ret (success_msg (PStr "Believer") (PStr "Imagine Dragons")
            "Believer.mp3")).
Proof.
  apply (@handler_returns_fetcher_message Fixture.ydl_ok Fixture.music
           "Imagine Dragons Believer" (PDict Fixture.believer));
    reflexivity.
Defined.

(** X14: the Request Handler always searches first, and it sends the
    download request, once and after the search, exactly when the Resolver
    returns a truthy value; it sends nothing else.  (The Resolver does
    return whenever the search does not end with an error outside
    [Exception].) *)
Theorem handler_downloads_iff_item_found
  (ydl : YoutubeDL) (dp : PurePath) (query : string) :
  fst (download_and_play ydl dp query)
  = search_call dp query
    :: match snd (get_youtube_info ydl dp query) with
       | Ret video_info =>
           if Py.truthy video_info then [download_call dp query] else []
       | _ => []
       end
  /\ ((forall e : exc,
         extract_info ydl (info_opts dp) ("ytsearch1:" ++ query) false
         <> RaiseBase e) ->
      exists video_info : pyval,
        snd (get_youtube_info ydl dp query) = Ret video_info
        /\ fst (download_and_play ydl dp query)
           = search_call dp query
             :: (if Py.truthy video_info
                 then [download_call dp query] else [])).
Proof.
  assert (Hlog : fst (download_and_play ydl dp query)
                 = search_call dp query
                   :: match snd (get_youtube_info ydl dp query) with
                      | Ret video_info =>
                          if Py.truthy video_info
                          then [download_call dp query] else []
                      | _ => []
                      end).
  { rewrite download_and_play_eq. cbv zeta.
    rewrite get_youtube_info_log.
    destruct (snd (get_youtube_info ydl dp query)) as [v | e | e];
      try reflexivity.
    destruct (Py.truthy v); cbn [fst]; [|reflexivity].
    now rewrite download_and_store_track_log. }
  split; [exact Hlog|].
  intros Hs. rewrite Hlog. rewrite get_youtube_info_eq. cbn [snd].
  destruct (extract_info ydl (info_opts dp) ("ytsearch1:" ++ query) false)
    as [info | e | e]; cbn [bind_result none_on_error].
  - destruct (pick_first info) as [v | e | e] eqn:Hp; cbn [none_on_error].
    + eexists; split; reflexivity.
    + eexists; split; reflexivity.
    + exfalso. exact (pick_first_no_base _ Hp).
  - eexists; split; reflexivity.
  - now elim (Hs e).
Qed.

Lemma handler_downloads_iff_item_found_witness :
  exists video_info : pyval,
    snd (get_youtube_info Fixture.ydl_empty_entry Fixture.music "Believer")
    = Ret video_info
    /\ fst (download_and_play Fixture.ydl_empty_entry Fixture.music
              "Believer")
       = search_call Fixture.music "Believer"
         :: (if Py.truthy video_info
             then [download_call Fixture.music "Believer"] else []).
Proof.
  apply (proj2 (handler_downloads_iff_item_found Fixture.ydl_empty_entry
                  Fixture.music "Believer")).
  intros e; discriminate.
Defined.

(** X15: every text the Request Handler returns has one of four forms: the
    no-results text, the no-files text for the query, a success message, or
    the error text carrying a download failure.  No other error text can
    come out, since the Resolver raises no error that is an instance of
    [Exception]; and a text is returned whenever no collaborator call ends
    with an error outside [Exception]. *)
Theorem handler_message_forms
  (ydl : YoutubeDL) (dp : PurePath) (query : string) :
  (forall msg : string,
     snd (download_and_play ydl dp query) = Ret msg ->
     msg = "No search results found on YouTube for your query."
     \/ msg = "Download completed for: " ++ query
              ++ ", but no files were found."
     \/ (exists (title artist : pyval) (file_name : string),
           msg = success_msg title artist file_name)
     \/ (exists detail : string,
           msg = error_mark ++ " Error processing request: "
                 ++ "Failed to download track: " ++ detail))
  /\ (no_interrupt ydl dp query ->
      exists msg : string,
        snd (download_and_play ydl dp query) = Ret msg
        /\ (msg = "No search results found on YouTube for your query."
            \/ msg = "Download completed for: " ++ query
                     ++ ", but no files were found."
            \/ (exists (title artist : pyval) (file_name : string),
                  msg = success_msg title artist file_name)
            \/ (exists detail : string,
                  msg = error_mark ++ " Error processing request: "
                        ++ "Failed to download track: " ++ detail))).
Proof.
  assert (Hforms : forall msg : string,
     snd (download_and_play ydl dp query) = Ret msg ->
     msg = "No search results found on YouTube for your query."
     \/ msg = "Download completed for: " ++ query
              ++ ", but no files were found."
     \/ (exists (title artist : pyval) (file_name : string),
           msg = success_msg title artist file_name)
     \/ (exists detail : string,
           msg = error_mark ++ " Error processing request: "
                 ++ "Failed to download track: " ++ detail)).
  { intros msg. rewrite download_and_play_eq. cbv zeta.
    rewrite get_youtube_info_eq. cbn [snd fst].
    destruct (none_on_error _) as [v | e | e] eqn:Hn.
    2: { exfalso. revert Hn.
         destruct (bind_result _ _); discriminate. }
    2: { discriminate. }
    destruct (Py.truthy v); [|intros [= <-]; now left].
    rewrite download_and_store_track_eq. cbn [snd].
    destruct (snd (ydl_download ydl (ydl_opts dp)
                     ["ytsearch1:" ++ query] []))
      as [[|music_file files] | e | e];
      cbn [bind_result finalize download_failed error_text];
      try discriminate.
    - intros [= <-]. right; now left.
    - destruct (ensure_mp3 music_file) as [final | e | e];
        cbn [bind_result download_failed error_text]; try discriminate.
      2: { intros [= <-]. do 3 right. eexists; reflexivity. }
      destruct (Py.method_get _ "title" _) as [title | e | e];
        cbn [bind_result download_failed error_text]; try discriminate.
      2: { intros [= <-]. do 3 right. eexists; reflexivity. }
      destruct (Py.method_get _ "uploader" _) as [artist | e | e];
        cbn [bind_result download_failed error_text]; try discriminate.
      2: { intros [= <-]. do 3 right. eexists; reflexivity. }
      destruct (Pathlib.of_pyval final) as [saved | e | e];
        cbn [bind_result download_failed error_text]; try discriminate.
      2: { intros [= <-]. do 3 right. eexists; reflexivity. }
      intros [= <-]. right; right; left. do 3 eexists. reflexivity.
    - intros [= <-]. do 3 right. eexists; reflexivity. }
  split; [exact Hforms|].
  intros [Hs Hd].
  assert (Hret : exists msg, snd (download_and_play ydl dp query) = Ret msg).
  { rewrite download_and_play_eq. cbv zeta.
    rewrite get_youtube_info_eq. cbn [snd fst].
    destruct (extract_info ydl (info_opts dp) ("ytsearch1:" ++ query) false)
      as [info | e | e]; cbn [bind_result none_on_error];
      [| eexists; reflexivity | now elim (Hs e)].
    destruct (pick_first info) as [v | e | e] eqn:Hp; cbn [none_on_error];
      [| eexists; reflexivity | exfalso; exact (pick_first_no_base _ Hp)].
    destruct (Py.truthy v); [|eexists; reflexivity].
    rewrite download_and_store_track_eq. cbn [snd].
    unfold ydl_download.
    destruct (download ydl (ydl_opts dp) ["ytsearch1:" ++ query])
      as [events outcome] eqn:Hdl. cbn [snd] in *.
    destruct (run_hooks events []) as [files | e | e] eqn:Hh;
      cbn [bind_result download_failed error_text];
      [| eexists; reflexivity | exfalso; exact (run_hooks_no_base _ _ Hh)].
    destruct outcome as [rc | e | e];
      cbn [bind_result download_failed error_text];
      [| eexists; reflexivity | now elim (Hd e)].
    destruct (finalize v query files) as [msg | e | e] eqn:Hf;
      cbn [download_failed error_text];
      [eexists; reflexivity | eexists; reflexivity
       | exfalso; exact (finalize_no_base _ _ _ Hf)]. }
  destruct Hret as [msg Hm]. exists msg. split; [exact Hm | exact (Hforms msg Hm)].
Qed.

Lemma handler_message_forms_witness :
  exists msg : string,
    snd (download_and_play Fixture.ydl_no_notice Fixture.music "Believer")
    = Ret msg
    /\ (msg = "No search results found on YouTube for your query."
        \/ msg = "Download completed for: " ++ "Believer"
                 ++ ", but no files were found."
        \/ (exists (title artist : pyval) (file_name : string),
              msg = success_msg title artist file_name)
        \/ (exists detail : string,
              msg = error_mark ++ " Error processing request: "
                    ++ "Failed to download track: " ++ detail)).
Proof.
  apply (proj2 (handler_message_forms Fixture.ydl_no_notice Fixture.music
                  "Believer")).
  split; intros e; discriminate.
Defined.

(* ================================================================== *)
(** * Where the files go *)
(* ================================================================== *)

(** X16: for a download root as [pathlib] parses it, the output template
    handed to the collaborator, read as a path, is the root followed by the
    two components [%(title)s] and [%(title)s.%(ext)s]; so its directory's
    directory is the download root. *)
Theorem output_template_is_under_download_root (dp : PurePath) :
  path_wf dp ->
  Pathlib.Path (outtmpl (ydl_opts dp))
  = mkPath (root dp) (parts dp ++ ["%(title)s"; "%(title)s.%(ext)s"])%list
  /\ Pathlib.parent (Pathlib.parent (Pathlib.Path (outtmpl (ydl_opts dp))))
     = dp.
Proof.
  intros (Hr & Hsep & Hkeep).
  assert (Ho : outtmpl (ydl_opts dp)
               = Pathlib.to_str
                   (mkPath (root dp)
                      (parts dp ++ ["%(title)s"; "%(title)s.%(ext)s"])%list)).
  { cbn [outtmpl ydl_opts YT_DLP_BASE_OPTS]. unfold Pathlib.div.
    change (Pathlib.Path "%(title)s") with (mkPath "" ["%(title)s"]).
    change (Pathlib.Path "%(title)s.%(ext)s")
      with (mkPath "" ["%(title)s.%(ext)s"]).
    cbn [root parts String.eqb]. now rewrite <- app_assoc. }
  assert (Hwf : path_wf
                  (mkPath (root dp)
                     (parts dp ++ ["%(title)s"; "%(title)s.%(ext)s"])%list)).
  { repeat split; cbn [root parts]; [exact Hr | |];
      (apply Forall_app; split; [assumption | repeat constructor]). }
  rewrite Ho, (PathFacts.Path_to_str Hwf). split; [reflexivity|].
  unfold Pathlib.parent. cbn [root parts].
  change (parts dp ++ ["%(title)s"; "%(title)s.%(ext)s"])%list
    with (parts dp ++ ["%(title)s"] ++ ["%(title)s.%(ext)s"])%list.
  rewrite app_assoc, !removelast_last. now destruct dp.
Qed.

Lemma output_template_is_under_download_root_witness :
  Pathlib.Path (outtmpl (ydl_opts (Pathlib.Path "/srv//music/")))
  = mkPath "/" ["srv"; "music"; "%(title)s"; "%(title)s.%(ext)s"]
  /\ Pathlib.parent
       (Pathlib.parent
          (Pathlib.Path (outtmpl (ydl_opts (Pathlib.Path "/srv//music/")))))
     = Pathlib.Path "/srv//music/".
Proof.
  apply (@output_template_is_under_download_root
           (Pathlib.Path "/srv//music/")).
  apply PathFacts.Path_wf.
Defined.

(* ================================================================== *)
(** * More on start-up *)
(* ================================================================== *)

(** X19: start-up is idempotent: started again on the file system a
    successful start-up left, it succeeds and changes nothing. *)
Theorem startup_is_idempotent
  (environ : list (string * string)) (fs fs' : filesystem) (dp : PurePath) :
  startup environ fs = Ret (dp, fs') ->
  startup environ fs' = Ret (dp, fs').
Proof.
  intros H.
  assert (Hd : dp = download_path environ /\ OS.is_dir fs' dp = true).
  { revert H. unfold startup, OS.Path_mkdir, OS.mkdir, OS.is_dir.
    destruct (fs_kind fs (Pathlib.to_str (download_path environ)))
      as [[|]|] eqn:Hp.
    - cbn. intros [= <- <-]. now rewrite Hp.
    - cbn. discriminate.
    - destruct (fs_mkdir fs (Pathlib.to_str (download_path environ)))
        as [after | e].
      + cbn. intros [= <- <-]. unfold OS.created. cbn [fs_kind].
        now rewrite String.eqb_refl.
      + destruct (String.eqb (exc_type e) "FileNotFoundError");
          [discriminate|].
        destruct (OS.is_OSError (exc_type e)); discriminate. }
  destruct Hd as [-> Hdir]. clear H.
  unfold startup, OS.Path_mkdir, OS.mkdir. unfold OS.is_dir in *.
  destruct (fs_kind fs' (Pathlib.to_str (download_path environ)))
    as [[|]|]; try discriminate.
  reflexivity.
Qed.

Lemma startup_is_idempotent_witness :
  startup [("DOWNLOAD_PATH", "music")] Fixture.fs_with_music
  = Ret (Pathlib.Path "music", Fixture.fs_with_music).
Proof.
  apply (@startup_is_idempotent [("DOWNLOAD_PATH", "music")]
           Fixture.fs_cwd_only Fixture.fs_with_music
           (Pathlib.Path "music")).
  reflexivity.
Defined.

(** X20: when the Resolver found a truthy item and the download call raises
    an error [e], the Request Handler returns, after the two requests, the
    error text that ends with ["Failed to download track: "] and [str(e)]:
    the collaborator's own words reach the caller. *)
Theorem handler_reports_download_error
  (ydl : YoutubeDL) (dp : PurePath) (query : string)
  (video_info : pyval) (e : exc) :
  snd (get_youtube_info ydl dp query) = Ret video_info ->
  Py.truthy video_info = true ->
  snd (ydl_download ydl (ydl_opts dp) ["ytsearch1:" ++ query] []) = Raise e ->
  download_and_play ydl dp query
  = ([search_call dp query; download_call dp query],
     Ret (error_mark ++ " Error processing request: "
          ++ "Failed to download track: " ++ exc_str e)).
Proof.
  intros Hv Ht He. rewrite download_and_play_eq. cbv zeta.
  rewrite Hv, Ht, get_youtube_info_log, download_and_store_track_log.
  rewrite download_and_store_track_eq. cbn [snd]. rewrite He. reflexivity.
Qed.

Lemma handler_reports_download_error_witness :
  download_and_play Fixture.ydl_download_error Fixture.music "Believer"
  = ([search_call Fixture.music "Believer";
      download_call Fixture.music "Believer"],
     Ret (error_mark ++ " Error processing request: "
          ++ "Failed to download track: "
          ++ "ERROR: unable to download video data")).
Proof.
  apply (@handler_reports_download_error Fixture.ydl_download_error
           Fixture.music "Believer" (PDict Fixture.believer)
           (mkExc "DownloadError" "ERROR: unable to download video data"
              None));
    reflexivity.
Defined.
